(** * Verification of [workflows/generic_bump_version.py]

    A shallow embedding of the version bumper: the [VersionType] enum, the
    [GenericVersion] object with its methods [set_bump_type],
    [get_next_version], [_get_next_version_with_build] and
    [_get_next_version_without_build], and the Python built-ins these
    methods call ([str.find], [str.split], [str.count], [int], the
    formatting of an [int] inside an f-string).

    Modelling choices.
    - Python [int] is unbounded: it is [Z], and [+= 1] is exact.
    - Python [str] is [string]; the texts considered are ASCII.  On ASCII
      text [int()] skips the blanks of C's [isspace], takes one optional
      sign, and then digits in which single underscores may separate two
      digits.  (The interpreter's configurable cap on the number of digits
      of a literal is not modelled.)
    - The object is a record; an attribute that was only annotated and not
      yet assigned ([bump_type], [next_version]) is [None], and reading it
      raises [AttributeError].
    - Methods run in a state-and-exception monad over the object.  No
      method assigns an attribute before a statement that can raise, so
      the object at a raise is the object at entry and is not returned.
    - The methods that compute the next version take [current_version] as
      whatever text the object holds.  The file accesses
      ([_get_current_version], [write_new_version]) and the script are
      modelled separately, in the file layer, over a directory that is a
      finite map from names to contents. *)

From Stdlib Require Import ZArith String Ascii List Lia.
From Stdlib Require Import DecimalString DecimalPos DecimalZ.
From stdpp Require Import base option gmap strings.

Local Open Scope string_scope.
Local Open Scope Z_scope.

(** ** Exceptions and results *)

Inductive exception : Type :=
  | ValueError
  | IndexError
  | AttributeError.

Inductive result (A : Type) : Type :=
  | Ok (a : A)
  | Raise (e : exception).

Arguments Ok {A} a.
Arguments Raise {A} e.

Definition is_Raise {A} (r : result A) : Prop :=
  match r with Raise _ => True | Ok _ => False end.

Definition rbind {A B} (r : result A) (k : A → result B) : result B :=
  match r with
  | Ok a => k a
  | Raise e => Raise e
  end.

(** ** The Python built-ins used by the script *)

Module Py.

(** [s.find(c)] for a one-character [c]: index of the first occurrence,
    [-1] when there is none. *)
Fixpoint find (c : ascii) (s : string) : Z :=
  match s with
  | EmptyString => -1
  | String a r =>
      if Ascii.eqb a c then 0
      else let i := find c r in if i <? 0 then -1 else i + 1
  end.

(** [s.split(c)] for a one-character separator [c]: the maximal pieces
    between the occurrences of [c], empty pieces included. *)
Fixpoint split (c : ascii) (s : string) : list string :=
  match s with
  | EmptyString => [EmptyString]
  | String a r =>
      if Ascii.eqb a c then EmptyString :: split c r
      else match split c r with
           | h :: t => String a h :: t
           | [] => [String a EmptyString]
           end
  end.

(** [s.count(c)] for a one-character [c]. *)
Fixpoint count (c : ascii) (s : string) : nat :=
  match s with
  | EmptyString => O
  | String a r => ((if Ascii.eqb a c then 1 else 0) + count c r)%nat
  end.

(** [l[i]] for a non-negative index; out of range it raises. *)
Definition index {A} (l : list A) (i : nat) : result A :=
  match nth_error l i with
  | Some x => Ok x
  | None => Raise IndexError
  end.

(** [a, b, c = l]: any other number of elements raises. *)
Definition unpack3 {A} (l : list A) : result (A * A * A) :=
  match l with
  | [a; b; c] => Ok (a, b, c)
  | _ => Raise ValueError
  end.

(** The blanks [int()] skips on ASCII text: tab, line feed, vertical
    tab, form feed, carriage return and space. *)
Definition is_space (c : ascii) : bool :=
  let n := N_of_ascii c in
  ((9 <=? n) && (n <=? 13) || (n =? 32))%N.

Definition digit_value (c : ascii) : option Z :=
  let n := N_of_ascii c in
  if ((48 <=? n) && (n <=? 57))%N then Some (Z.of_N n - 48) else None.

Definition is_digit (c : ascii) : bool :=
  match digit_value c with Some _ => true | None => false end.

Fixpoint skip_space (s : string) : string :=
  match s with
  | String c r => if is_space c then skip_space r else s
  | EmptyString => EmptyString
  end.

Fixpoint all_space (s : string) : bool :=
  match s with
  | String c r => is_space c && all_space r
  | EmptyString => true
  end.

(** Where the digit scanner stands: nothing read yet, just after a digit,
    or just after an underscore. *)
Inductive scan_state : Type := AtStart | AfterDigit | AfterUnderscore.

(** The scanner stops at the first character that is neither a digit nor
    an underscore; it must then stand just after a digit. *)
Definition scan_stop (st : scan_state) (acc : Z) (rest : string)
  : option (Z * string) :=
  match st with
  | AfterDigit => Some (acc, rest)
  | _ => None
  end.

Fixpoint scan_digits (st : scan_state) (acc : Z) (s : string)
  : option (Z * string) :=
  match s with
  | EmptyString => scan_stop st acc EmptyString
  | String c r =>
      match digit_value c with
      | Some d => scan_digits AfterDigit (10 * acc + d) r
      | None =>
          if Ascii.eqb c "_" then
            match st with
            | AfterDigit => scan_digits AfterUnderscore acc r
            | _ => None
            end
          else scan_stop st acc s
      end
  end.

(** The literal after the leading blanks: sign, digits, trailing
    blanks. *)
Definition int_signed (s : string) : option Z :=
  let '(sign, body) :=
    match s with
    | String c r =>
        if Ascii.eqb c "+" then (1, r)
        else if Ascii.eqb c "-" then (-1, r)
        else (1, s)
    | EmptyString => (1, s)
    end in
  match scan_digits AtStart 0 body with
  | Some (n, rest) => if all_space rest then Some (sign * n) else None
  | None => None
  end.

(** [int(s)] in base ten. *)
Definition int (s : string) : result Z :=
  match int_signed (skip_space s) with
  | Some z => Ok z
  | None => Raise ValueError
  end.

(** [str(z)], which is also what [f"{z}"] inserts: the decimal digits
    without leading zeros, after a minus sign when [z] is negative. *)
Definition str (z : Z) : string := NilZero.string_of_int (Z.to_int z).

End Py.

(** ** The enum [VersionType] *)

Inductive VersionType : Type := MAJOR | MINOR | PATCH | BUILD.

Definition value (m : VersionType) : string :=
  match m with
  | MAJOR => "major"
  | MINOR => "minor"
  | PATCH => "patch"
  | BUILD => "build"
  end.

(** The dictionary the enum machinery keeps: from a member's value to the
    member. *)
Definition _value2member_map_ : gmap string VersionType :=
  <[value BUILD := BUILD]> (<[value PATCH := PATCH]>
    (<[value MINOR := MINOR]> (<[value MAJOR := MAJOR]> ∅))).

(** [VersionType(v)]: the member whose value is [v]. *)
Definition VersionType_of_value (v : string) : result VersionType :=
  match _value2member_map_ !! v with
  | Some m => Ok m
  | None => Raise ValueError
  end.

(** ** The object and its monad *)

Record GenericVersion : Type := mkGenericVersion {
  filename : string;
  bump_type : option VersionType;
  current_version : string;
  next_version : option string
}.

Definition M (A : Type) : Type := GenericVersion → result (A * GenericVersion).

Definition ret {A} (a : A) : M A := λ self, Ok (a, self).

Definition bind {A B} (m : M A) (k : A → M B) : M B :=
  λ self, match m self with
          | Ok (a, self') => k a self'
          | Raise e => Raise e
          end.

Definition raise {A} (e : exception) : M A := λ _, Raise e.

Definition lift {A} (r : result A) : M A :=
  λ self, match r with Ok a => Ok (a, self) | Raise e => Raise e end.

Notation "'do' x <- m ;; k" := (bind m (λ x, k))
  (at level 10, x name, m at level 99, k at level 200,
   format "'[v' 'do'  x  <-  m  ;; '/' k ']'").
Notation "'do' ' p <- m ;; k" := (bind m (λ x, match x with p => k end))
  (at level 10, p pattern, m at level 99, k at level 200,
   format "'[v' 'do'  ' p  <-  m  ;; '/' k ']'").
Notation "'run' m ;; k" := (bind m (λ _, k))
  (at level 10, m at level 99, k at level 200,
   format "'[v' 'run'  m  ;; '/' k ']'").

(** Reading an attribute; one that was never assigned raises. *)
Definition get_current_version : M string :=
  λ self, Ok (current_version self, self).

Definition get_bump_type : M VersionType :=
  λ self, match bump_type self with
          | Some k => Ok (k, self)
          | None => Raise AttributeError
          end.

(** Assigning an attribute. *)
Definition set_bump_type_attr (k : VersionType) : M unit :=
  λ self, Ok (tt, mkGenericVersion (filename self) (Some k)
                    (current_version self) (next_version self)).

Definition set_next_version (s : string) : M unit :=
  λ self, Ok (tt, mkGenericVersion (filename self) (bump_type self)
                    (current_version self) (Some s)).

(** ** The methods of [GenericVersion]

    A [match] statement none of whose cases applies does nothing: this is
    the last line of the [match] of [_get_next_version_without_build],
    which has no case for [BUILD]. *)

Definition set_bump_type (bump_type : string) : M unit :=
  if decide (_value2member_map_ !! bump_type = None) then raise ValueError
  else
    do member <- lift (VersionType_of_value bump_type) ;;
    set_bump_type_attr member.

Definition _get_next_version_with_build : M string :=
  do cv <- get_current_version ;;
  do build_str <- lift (Py.index (Py.split "+" cv) 1) ;;
  do head <- lift (Py.index (Py.split "+" cv) 0) ;;
  do '(major_str, minor_str, patch_str) <- lift (Py.unpack3 (Py.split "." head)) ;;
  do major <- lift (Py.int major_str) ;;
  do minor <- lift (Py.int minor_str) ;;
  do patch <- lift (Py.int patch_str) ;;
  do build <- lift (Py.int build_str) ;;
  do kind <- get_bump_type ;;
  let '(major, minor, patch, build) :=
    match kind with
    | BUILD => (major, minor, patch, build + 1)
    | PATCH => (major, minor, patch + 1, 1)
    | MINOR => (major, minor + 1, 0, 1)
    | MAJOR => (major + 1, 0, 0, 1)
    end in
  let next :=
    Py.str major +:+ "." +:+ Py.str minor +:+ "." +:+ Py.str patch
      +:+ "+" +:+ Py.str build in
  run set_next_version next ;;
  ret next.

Definition _get_next_version_without_build : M string :=
  do cv <- get_current_version ;;
  do '(major_str, minor_str, patch_str) <- lift (Py.unpack3 (Py.split "." cv)) ;;
  do major <- lift (Py.int major_str) ;;
  do minor <- lift (Py.int minor_str) ;;
  do patch <- lift (Py.int patch_str) ;;
  do kind <- get_bump_type ;;
  let '(major, minor, patch) :=
    match kind with
    | PATCH => (major, minor, patch + 1)
    | MINOR => (major, minor + 1, 0)
    | MAJOR => (major + 1, 0, 0)
    | BUILD => (major, minor, patch)
    end in
  let next := Py.str major +:+ "." +:+ Py.str minor +:+ "." +:+ Py.str patch in
  run set_next_version next ;;
  ret next.

Definition get_next_version : M string :=
  do cv <- get_current_version ;;
  if 0 <? Py.find "+" cv then _get_next_version_with_build
  else _get_next_version_without_build.

(** ** The three steps inside [get_next_version]

    Each of the two private methods reads the fields of the text, applies
    its [match] statement and builds the f-string.  The three steps are
    named here after the operations of the specification; the lemma
    [get_next_version_steps] shows that the methods are their composition. *)

Inductive Version : Type :=
  | Unbuilt (major minor patch : Z)
  | Built (major minor patch build : Z).

Notation "'let?' x := r 'in' k" := (rbind r (λ x, k))
  (at level 10, x name, r at level 99, k at level 200,
   format "'[v' 'let?'  x  :=  r  'in' '/' k ']'").
Notation "'let?' ' p := r 'in' k" := (rbind r (λ x, match x with p => k end))
  (at level 10, p pattern, r at level 99, k at level 200,
   format "'[v' 'let?'  ' p  :=  r  'in' '/' k ']'").

(** The test of [get_next_version], then the splits and the [int()] calls
    of the method it selects. *)
Definition parse (text : string) : result Version :=
  if 0 <? Py.find "+" text then
    let? build_str := Py.index (Py.split "+" text) 1 in
    let? head := Py.index (Py.split "+" text) 0 in
    let? '(major_str, minor_str, patch_str) := Py.unpack3 (Py.split "." head) in
    let? major := Py.int major_str in
    let? minor := Py.int minor_str in
    let? patch := Py.int patch_str in
    let? build := Py.int build_str in
    Ok (Built major minor patch build)
  else
    let? '(major_str, minor_str, patch_str) := Py.unpack3 (Py.split "." text) in
    let? major := Py.int major_str in
    let? minor := Py.int minor_str in
    let? patch := Py.int patch_str in
    Ok (Unbuilt major minor patch).

(** The two [match self.bump_type] statements. *)
Definition bump (v : Version) (kind : VersionType) : Version :=
  match v with
  | Built major minor patch build =>
      match kind with
      | BUILD => Built major minor patch (build + 1)
      | PATCH => Built major minor (patch + 1) 1
      | MINOR => Built major (minor + 1) 0 1
      | MAJOR => Built (major + 1) 0 0 1
      end
  | Unbuilt major minor patch =>
      match kind with
      | PATCH => Unbuilt major minor (patch + 1)
      | MINOR => Unbuilt major (minor + 1) 0
      | MAJOR => Unbuilt (major + 1) 0 0
      | BUILD => Unbuilt major minor patch
      end
  end.

(** The two f-strings. *)
Definition format (v : Version) : string :=
  match v with
  | Built major minor patch build =>
      Py.str major +:+ "." +:+ Py.str minor +:+ "." +:+ Py.str patch
        +:+ "+" +:+ Py.str build
  | Unbuilt major minor patch =>
      Py.str major +:+ "." +:+ Py.str minor +:+ "." +:+ Py.str patch
  end.

(** The reads of the method without build: the second branch of [parse]. *)
Definition read_unbuilt (l : list string) : result Version :=
  let? '(major_str, minor_str, patch_str) := Py.unpack3 l in
  let? major := Py.int major_str in
  let? minor := Py.int minor_str in
  let? patch := Py.int patch_str in
  Ok (Unbuilt major minor patch).

(** The reads of the method with build, after the two indexings: the
    first branch of [parse]. *)
Definition read_built (l : list string) (build_str : string) : result Version :=
  let? '(major_str, minor_str, patch_str) := Py.unpack3 l in
  let? major := Py.int major_str in
  let? minor := Py.int minor_str in
  let? patch := Py.int patch_str in
  let? build := Py.int build_str in
  Ok (Built major minor patch build).

(** ** Vocabulary of the properties *)

Definition is_built (v : Version) : bool :=
  match v with Built _ _ _ _ => true | Unbuilt _ _ _ => false end.

(** A Version of the data model: no negative component, and a positive
    build counter when there is one. *)
Definition valid (v : Version) : Prop :=
  match v with
  | Unbuilt major minor patch => 0 ≤ major ∧ 0 ≤ minor ∧ 0 ≤ patch
  | Built major minor patch build =>
      0 ≤ major ∧ 0 ≤ minor ∧ 0 ≤ patch ∧ 0 < build
  end.

(** The components, highest order first. *)
Definition fields (v : Version) : list Z :=
  match v with
  | Unbuilt major minor patch => [major; minor; patch]
  | Built major minor patch build => [major; minor; patch; build]
  end.

(** Lexicographic order on component tuples. *)
Fixpoint lex_le (a b : list Z) : Prop :=
  match a, b with
  | [], _ => True
  | _ :: _, [] => False
  | x :: a', y :: b' => x < y ∨ (x = y ∧ lex_le a' b')
  end.

Fixpoint lex_lt (a b : list Z) : Prop :=
  match a, b with
  | _, [] => False
  | [], _ :: _ => True
  | x :: a', y :: b' => x < y ∨ (x = y ∧ lex_lt a' b')
  end.

Definition some_field_greater (a b : list Z) : Prop :=
  ∃ (i : nat) (x y : Z), a !! i = Some x ∧ b !! i = Some y ∧ x < y.

Definition no_field_decreases (a b : list Z) : Prop :=
  ∀ (i : nat) (x y : Z), a !! i = Some x → b !! i = Some y → x ≤ y.

(** The initial object of a run whose VERSION file holds [text], after
    [set_bump_type] has stored [kind]. *)
Definition version_handler (text : string) (kind : VersionType) : GenericVersion :=
  mkGenericVersion "VERSION" (Some kind) text None.

(** The object once [next_version] has been assigned. *)
Definition with_next_version (self : GenericVersion) (s : string) : GenericVersion :=
  mkGenericVersion (filename self) (bump_type self) (current_version self) (Some s).

(** Every character of the text satisfies [P]. *)
Fixpoint all_chars (P : ascii → bool) (s : string) : bool :=
  match s with
  | EmptyString => true
  | String c r => P c && all_chars P r
  end.

(** The characters [str] can produce. *)
Definition is_digit_or_minus (c : ascii) : bool :=
  Py.is_digit c || Ascii.eqb c "-".

(** Value of a decimal numeral read from its high end, starting from an
    accumulator: the arithmetic the digit scanner performs. *)
Fixpoint horner (d : Decimal.uint) (acc : Z) : Z :=
  match d with
  | Decimal.Nil => acc
  | Decimal.D0 d' => horner d' (10 * acc + 0)
  | Decimal.D1 d' => horner d' (10 * acc + 1)
  | Decimal.D2 d' => horner d' (10 * acc + 2)
  | Decimal.D3 d' => horner d' (10 * acc + 3)
  | Decimal.D4 d' => horner d' (10 * acc + 4)
  | Decimal.D5 d' => horner d' (10 * acc + 5)
  | Decimal.D6 d' => horner d' (10 * acc + 6)
  | Decimal.D7 d' => horner d' (10 * acc + 7)
  | Decimal.D8 d' => horner d' (10 * acc + 8)
  | Decimal.D9 d' => horner d' (10 * acc + 9)
  end.

(** Method [m], called on [self], returns [s] and leaves the object with
    [next_version] set to [s] and nothing else changed. *)
Definition returns (m : M string) (self : GenericVersion) (s : string) : Prop :=
  m self = Ok (s, with_next_version self s).

(** The monotonicity property in the words of the specification: the
    tuple does not go down in the lexicographic order, some field goes up,
    and no field goes down. *)
Definition monotone_as_specified (v : Version) (kind : VersionType) : Prop :=
  lex_le (fields v) (fields (bump v kind)) ∧
  some_field_greater (fields v) (fields (bump v kind)) ∧
  no_field_decreases (fields v) (fields (bump v kind)).

(** A field in the words of the specification: a non-negative base-10
    literal, that is a non-empty run of digits. *)
Definition spec_literal (s : string) : bool :=
  negb (String.eqb s "") && all_chars Py.is_digit s.

(** The failure condition of parse in the words of the specification: the
    [.]-split of the version part has not exactly three fields, or a [+] is
    present and the [+]-split has not exactly two fields, or some field is
    not a literal. *)
Definition malformed_as_specified (text : string) : bool :=
  let pieces := Py.split "+" text in
  let version_fields := Py.split "." (hd "" pieces) in
  negb (length version_fields =? 3)%nat
  || ((0 <? Py.count "+" text)%nat && negb (length pieces =? 2)%nat)
  || negb (forallb spec_literal (version_fields ++ tl pieces)).

(** The failure condition the code implements on a text that does not
    begin with [+]: the version part is the piece before the first [+], the
    build field is the piece after it (up to the next [+], if any), and a
    field is bad when [int()] rejects it. *)
Definition version_part (text : string) : string := hd "" (Py.split "+" text).

Definition build_field (text : string) : list string :=
  take 1 (tl (Py.split "+" text)).

Definition malformed (text : string) : Prop :=
  length (Py.split "." (version_part text)) ≠ 3%nat ∨
  Exists (λ f, Py.int f = Raise ValueError)
         (Py.split "." (version_part text) ++ build_field text).

(** ** The file layer

    The working directory is a finite map from file names to contents, and
    the world is this map together with what has been printed.  Opening a
    file for writing always succeeds (the directory is taken to be
    writable) and empties the file at once; a write appends at the end, and
    leaving the [with] block closes the file, whether normally or by an
    exception, so what was written is in the file afterwards.  Unlike the
    object, the world survives an exception. *)

Record world : Type := mkWorld {
  fs : gmap string string;
  stdout : list string
}.

(** What can be raised once files are involved: the exceptions of the
    methods above, and [io.UnsupportedOperation] (nothing in the script
    catches an exception, so its base classes play no part). *)
Inductive raised : Type :=
  | Core (e : exception)
  | UnsupportedOperation.

Inductive outcome (A : Type) : Type :=
  | Done (a : A)
  | Failed (r : raised).

Arguments Done {A} a.
Arguments Failed {A} r.

Definition IO (A : Type) : Type := world → outcome A * world.

Definition io_ret {A} (a : A) : IO A := λ w, (Done a, w).

Definition io_bind {A B} (m : IO A) (k : A → IO B) : IO B :=
  λ w, match m w with
       | (Done a, w') => k a w'
       | (Failed r, w') => (Failed r, w')
       end.

Definition io_raise {A} (r : raised) : IO A := λ w, (Failed r, w).

Notation "'io' x <- m ;; k" := (io_bind m (λ x, k))
  (at level 10, x name, m at level 99, k at level 200,
   format "'[v' 'io'  x  <-  m  ;; '/' k ']'").
Notation "'io' ' p <- m ;; k" := (io_bind m (λ x, match x with p => k end))
  (at level 10, p pattern, m at level 99, k at level 200,
   format "'[v' 'io'  ' p  <-  m  ;; '/' k ']'").

(** A method of the object called from the file layer: its exception, if
    any, propagates, and it does not touch the world. *)
Definition call {A} (m : M A) (self : GenericVersion) : IO (A * GenericVersion) :=
  λ w, match m self with
       | Ok r => (Done r, w)
       | Raise e => (Failed (Core e), w)
       end.

Module PyFile.

Inductive file_mode : Type := Reading | Writing.

Record handle : Type := mkHandle {
  handle_name : string;
  handle_mode : file_mode
}.

(** [open(name, 'w')]: the file is created or emptied. *)
Definition open_w (name : string) : IO handle :=
  λ w, (Done (mkHandle name Writing),
        mkWorld (<[name := ""]> (fs w)) (stdout w)).

(** [f.read()]: the whole content, on a readable file only. *)
Definition read (f : handle) : IO string :=
  λ w, match handle_mode f with
       | Reading => (Done (default "" (fs w !! handle_name f)), w)
       | Writing => (Failed UnsupportedOperation, w)
       end.

(** [f.write(s)]: [s] goes to the end of the file, on a writable file
    only; the number of characters written is returned. *)
Definition write (f : handle) (s : string) : IO nat :=
  λ w, match handle_mode f with
       | Writing =>
           (Done (String.length s),
            mkWorld (<[handle_name f :=
                        default "" (fs w !! handle_name f) +:+ s]> (fs w))
                    (stdout w))
       | Reading => (Failed UnsupportedOperation, w)
       end.

(** [print(s)]. *)
Definition print (s : string) : IO unit :=
  λ w, (Done tt, mkWorld (fs w) (stdout w ++ [s])).

(** The blanks [str.strip()] removes on ASCII text: those of [int()] and
    the four separators 28 to 31. *)
Definition is_blank (c : ascii) : bool :=
  let n := N_of_ascii c in
  ((9 <=? n) && (n <=? 13) || (28 <=? n) && (n <=? 32))%N.

Fixpoint lstrip (s : string) : string :=
  match s with
  | String c r => if is_blank c then lstrip r else s
  | EmptyString => EmptyString
  end.

Fixpoint rstrip (s : string) : string :=
  match s with
  | String c r =>
      match rstrip r with
      | EmptyString => if is_blank c then EmptyString else String c EmptyString
      | r' => String c r'
      end
  | EmptyString => EmptyString
  end.

(** [s.strip()]. *)
Definition strip (s : string) : string := rstrip (lstrip s).

End PyFile.

(** ** The methods that touch the file, and the script *)

(** The method reads one attribute of the object, [filename], the only one
    assigned when [__init__] calls it; it is passed as the argument. *)
Definition _get_current_version (filename : string) : IO string :=
  io f <- PyFile.open_w filename ;;
  io text <- PyFile.read f ;;
  io_ret (PyFile.strip text).

(** [GenericVersion()]: the two annotated attributes stay unassigned. *)
Definition __init__ : IO GenericVersion :=
  let filename := "VERSION" in
  io current_version <- _get_current_version filename ;;
  io_ret (mkGenericVersion filename None current_version None).

(** The file is opened before [self.next_version] is read. *)
Definition write_new_version (self : GenericVersion) : IO unit :=
  io f <- PyFile.open_w (filename self) ;;
  io text <- (match next_version self with
              | Some s => io_ret s
              | None => io_raise (Core AttributeError)
              end) ;;
  io written <- PyFile.write f text ;;
  io_ret tt.

(** The script after the construction of the object: the three method
    calls and the [print]. *)
Definition run_handler (version_handler : GenericVersion) (version_type : string)
  : IO unit :=
  io '(_, version_handler) <- call (set_bump_type version_type) version_handler ;;
  io '(next_version, version_handler) <- call get_next_version version_handler ;;
  io done <- write_new_version version_handler ;;
  PyFile.print next_version.

(** The choices given to the argument parser. *)
Definition choices : list string := ["major"; "minor"; "patch"; "build"].

(** How [parser.parse_args()] ends.  The parser belongs to the standard
    library and is taken as given: either it leaves the script with an
    exit status, after printing what it prints on the standard output
    (the help text, for instance), or it returns a namespace with the one
    argument [version_type]. *)
Inductive parse_args_result : Type :=
  | Exits (status : Z) (printed : list string)
  | Namespace (version_type : string).

(** What the parser guarantees: an argument it returns is one of the
    choices. *)
Definition parse_args_contract (args : parse_args_result) : Prop :=
  match args with
  | Namespace version_type => version_type ∈ choices
  | Exits _ _ => True
  end.

(** How a run of the script ends: by the exit of the parser, or with the
    outcome of the lines after it. *)
Inductive script_end : Type :=
  | SystemExit (status : Z)
  | Ended (o : outcome unit).

(** The script: the parser first, and only when it returns, the
    construction of the object and the rest. *)
Definition main (args : parse_args_result) : world → script_end * world :=
  λ w, match args with
       | Exits status printed =>
           (SystemExit status, mkWorld (fs w) (stdout w ++ printed))
       | Namespace version_type =>
           let '(o, w') :=
             (io version_handler <- __init__ ;;
              run_handler version_handler version_type) w in
           (Ended o, w')
       end.

(** Order of the bump kinds, highest first. *)
Definition rank (kind : VersionType) : nat :=
  match kind with
  | MAJOR => 0
  | MINOR => 1
  | PATCH => 2
  | BUILD => 3
  end.

(** The characters a returned text is made of. *)
Definition is_version_char (c : ascii) : bool :=
  Py.is_digit c || Ascii.eqb c "-" || Ascii.eqb c "." || Ascii.eqb c "+".

(** * Theory *)

(** ** The methods are parse, bump, format *)

Lemma _get_next_version_without_build_steps (self : GenericVersion) :
  (0 <? Py.find "+" (current_version self)) = false →
  _get_next_version_without_build self =
    match parse (current_version self) with
    | Raise e => Raise e
    | Ok v =>
        match bump_type self with
        | None => Raise AttributeError
        | Some kind =>
            Ok (format (bump v kind),
                with_next_version self (format (bump v kind)))
        end
    end.
Proof.
  intros Hfind.
  unfold _get_next_version_without_build, parse, bind, lift, get_current_version.
  rewrite Hfind.
  destruct (Py.unpack3 _) as [[[a b] c]|e]; simpl; [|reflexivity].
  destruct (Py.int a); simpl; [|reflexivity].
  destruct (Py.int b); simpl; [|reflexivity].
  destruct (Py.int c); simpl; [|reflexivity].
  unfold get_bump_type.
  destruct (bump_type self) as [[]|]; reflexivity.
Qed.

Lemma _get_next_version_with_build_steps (self : GenericVersion) :
  (0 <? Py.find "+" (current_version self)) = true →
  _get_next_version_with_build self =
    match parse (current_version self) with
    | Raise e => Raise e
    | Ok v =>
        match bump_type self with
        | None => Raise AttributeError
        | Some kind =>
            Ok (format (bump v kind),
                with_next_version self (format (bump v kind)))
        end
    end.
Proof.
  intros Hfind.
  unfold _get_next_version_with_build, parse, bind, lift, get_current_version.
  rewrite Hfind.
  destruct (Py.index _ 1) as [bs|e]; simpl; [|reflexivity].
  destruct (Py.index _ 0) as [hd|e]; simpl; [|reflexivity].
  destruct (Py.unpack3 _) as [[[a b] c]|e]; simpl; [|reflexivity].
  destruct (Py.int a); simpl; [|reflexivity].
  destruct (Py.int b); simpl; [|reflexivity].
  destruct (Py.int c); simpl; [|reflexivity].
  destruct (Py.int bs); simpl; [|reflexivity].
  unfold get_bump_type.
  destruct (bump_type self) as [[]|]; reflexivity.
Qed.

Lemma get_next_version_steps (self : GenericVersion) :
  get_next_version self =
    match parse (current_version self) with
    | Raise e => Raise e
    | Ok v =>
        match bump_type self with
        | None => Raise AttributeError
        | Some kind =>
            Ok (format (bump v kind),
                with_next_version self (format (bump v kind)))
        end
    end.
Proof.
  unfold get_next_version, bind, get_current_version.
  destruct (0 <? Py.find "+" (current_version self)) eqn:Hfind.
  - now apply _get_next_version_with_build_steps.
  - now apply _get_next_version_without_build_steps.
Qed.

(** ** Facts about the built-ins *)

Section Builtins.

Lemma horner_of_lu (d d' : Decimal.uint) :
  Z.of_N (Unsigned.of_lu (Decimal.revapp d d')) =
  horner d (Z.of_N (Unsigned.of_lu d')).
Proof.
  revert d'. induction d; intros d'; simpl; [reflexivity | ..];
    rewrite IHd; f_equal; simpl Unsigned.of_lu; lia.
Qed.

Lemma horner_of_uint (d : Decimal.uint) :
  horner d 0 = Z.of_N (Pos.of_uint d).
Proof.
  rewrite Unsigned.of_uint_alt. unfold Decimal.rev.
  now rewrite horner_of_lu.
Qed.

Lemma scan_digits_numeral (d : Decimal.uint) (acc : Z) :
  Py.scan_digits Py.AfterDigit acc (NilEmpty.string_of_uint d) =
  Some (horner d acc, "").
Proof.
  revert acc. induction d; intros acc; simpl; [reflexivity | ..];
    apply IHd.
Qed.

Lemma scan_digits_start (d : Decimal.uint) :
  d ≠ Decimal.Nil →
  Py.scan_digits Py.AtStart 0 (NilEmpty.string_of_uint d) =
  Some (horner d 0, "").
Proof.
  destruct d; intros Hd; [congruence | ..]; simpl;
    apply scan_digits_numeral.
Qed.

Lemma skip_space_numeral (d : Decimal.uint) :
  Py.skip_space (NilEmpty.string_of_uint d) = NilEmpty.string_of_uint d.
Proof. destruct d; reflexivity. Qed.

Lemma skip_space_minus (s : string) :
  Py.skip_space (String "-" s) = String "-" s.
Proof. reflexivity. Qed.

Lemma int_signed_numeral (d : Decimal.uint) :
  d ≠ Decimal.Nil →
  Py.int_signed (NilEmpty.string_of_uint d) = Some (horner d 0).
Proof.
  intros Hd. pose proof (scan_digits_start d Hd) as Hscan.
  destruct d; [congruence | ..];
    unfold Py.int_signed; cbn [NilEmpty.string_of_uint] in *;
    cbn [Ascii.eqb Bool.eqb]; rewrite Hscan; cbn [Py.all_space];
    f_equal; lia.
Qed.

Lemma int_signed_minus_numeral (d : Decimal.uint) :
  d ≠ Decimal.Nil →
  Py.int_signed (String "-" (NilEmpty.string_of_uint d)) = Some (- horner d 0).
Proof.
  intros Hd. unfold Py.int_signed. cbn [Ascii.eqb Bool.eqb].
  rewrite (scan_digits_start d Hd). cbn [Py.all_space]. f_equal; lia.
Qed.

Lemma horner_to_uint (p : positive) : horner (Pos.to_uint p) 0 = Z.pos p.
Proof. now rewrite horner_of_uint, Unsigned.of_to. Qed.

Lemma str_pos (p : positive) :
  Py.str (Z.pos p) = NilEmpty.string_of_uint (Pos.to_uint p).
Proof.
  unfold Py.str. cbn [Z.to_int NilZero.string_of_int].
  pose proof (Unsigned.to_uint_nonnil p) as Hnil.
  now destruct (Pos.to_uint p).
Qed.

Lemma str_neg (p : positive) :
  Py.str (Z.neg p) = String "-" (NilEmpty.string_of_uint (Pos.to_uint p)).
Proof.
  unfold Py.str. cbn [Z.to_int NilZero.string_of_int].
  pose proof (Unsigned.to_uint_nonnil p) as Hnil.
  now destruct (Pos.to_uint p).
Qed.

(** [int] reads back what [str] wrote. *)
Lemma int_str (z : Z) : Py.int (Py.str z) = Ok z.
Proof.
  unfold Py.int. destruct z as [|p|p].
  - reflexivity.
  - rewrite str_pos, skip_space_numeral, int_signed_numeral
      by apply Unsigned.to_uint_nonnil.
    now rewrite horner_to_uint.
  - rewrite str_neg, skip_space_minus.
    rewrite int_signed_minus_numeral by apply Unsigned.to_uint_nonnil.
    now rewrite horner_to_uint.
Qed.

Lemma all_chars_numeral (d : Decimal.uint) :
  all_chars Py.is_digit (NilEmpty.string_of_uint d) = true.
Proof. induction d; simpl; auto. Qed.

Lemma all_chars_weaken (P Q : ascii → bool) (s : string) :
  (∀ c, P c = true → Q c = true) →
  all_chars P s = true → all_chars Q s = true.
Proof.
  intros HPQ. induction s as [|c r IH]; simpl; [easy|].
  rewrite !andb_true_iff. intros [Hc Hr]. auto.
Qed.

Lemma is_digit_or_minus_digit (c : ascii) :
  Py.is_digit c = true → is_digit_or_minus c = true.
Proof. unfold is_digit_or_minus. intros ->. reflexivity. Qed.

(** [str] writes digits and possibly a minus sign, nothing else. *)
Lemma all_chars_str (z : Z) : all_chars is_digit_or_minus (Py.str z) = true.
Proof.
  destruct z as [|p|p].
  - reflexivity.
  - rewrite str_pos.
    eapply all_chars_weaken; [apply is_digit_or_minus_digit|].
    apply all_chars_numeral.
  - rewrite str_neg. cbn [all_chars].
    apply andb_true_iff. split; [reflexivity|].
    eapply all_chars_weaken; [apply is_digit_or_minus_digit|].
    apply all_chars_numeral.
Qed.

Lemma str_nonempty (z : Z) : ∃ c r, Py.str z = String c r.
Proof.
  destruct z as [|p|p].
  - now exists "0"%char, "".
  - rewrite str_pos. pose proof (Unsigned.to_uint_nonnil p) as Hnil.
    destruct (Pos.to_uint p); [congruence | ..]; simpl; eauto.
  - rewrite str_neg. eauto.
Qed.

Lemma count_all_chars (P : ascii → bool) (c : ascii) (s : string) :
  P c = false → all_chars P s = true → Py.count c s = 0%nat.
Proof.
  intros Hc. induction s as [|a r IH]; simpl; [easy|].
  rewrite andb_true_iff. intros [Ha Hr].
  destruct (Ascii.eqb_spec a c) as [->|_]; [congruence|].
  now rewrite IH.
Qed.

Lemma count_str (c : ascii) (z : Z) :
  is_digit_or_minus c = false → Py.count c (Py.str z) = 0%nat.
Proof.
  intros Hc. eapply count_all_chars; [exact Hc | apply all_chars_str].
Qed.

Lemma count_app (c : ascii) (a b : string) :
  Py.count c (a +:+ b) = (Py.count c a + Py.count c b)%nat.
Proof. induction a as [|x a IH]; simpl; [reflexivity|]. rewrite IH. lia. Qed.

Lemma append_assoc (a b c : string) : (a +:+ b) +:+ c = a +:+ (b +:+ c).
Proof.
  induction a as [|x a IH]; [reflexivity|].
  change (String x ((a +:+ b) +:+ c) = String x (a +:+ (b +:+ c))).
  now rewrite IH.
Qed.

Lemma split_nonempty (c : ascii) (s : string) : Py.split c s ≠ [].
Proof.
  induction s as [|a r IH]; simpl; [easy|].
  destruct (Ascii.eqb a c); [easy|]. now destruct (Py.split c r).
Qed.

Lemma split_absent (c : ascii) (s : string) :
  Py.count c s = 0%nat → Py.split c s = [s].
Proof.
  induction s as [|a r IH]; simpl; [reflexivity|].
  destruct (Ascii.eqb a c); [lia|].
  intros Hr. now rewrite IH.
Qed.

Lemma split_app (c : ascii) (a r : string) :
  Py.count c a = 0%nat →
  Py.split c (a +:+ String c r) = a :: Py.split c r.
Proof.
  induction a as [|x a IH]; simpl.
  - intros _. now rewrite Ascii.eqb_refl.
  - destruct (Ascii.eqb x c); [lia|].
    intros Ha. now rewrite IH.
Qed.

Lemma find_ge (c : ascii) (s : string) : -1 ≤ Py.find c s.
Proof.
  induction s as [|a r IH]; simpl; [lia|].
  destruct (Ascii.eqb a c); [lia|].
  destruct (Z.ltb_spec (Py.find c r) 0); lia.
Qed.

Lemma find_absent (c : ascii) (s : string) :
  Py.count c s = 0%nat → Py.find c s = -1.
Proof.
  induction s as [|a r IH]; simpl; [reflexivity|].
  destruct (Ascii.eqb a c); [lia|].
  intros Hr. now rewrite IH.
Qed.

Lemma find_app (c : ascii) (a r : string) :
  Py.count c a = 0%nat →
  Py.find c (a +:+ String c r) = Z.of_nat (String.length a).
Proof.
  induction a as [|x a IH]; simpl String.length.
  - intros _. simpl. now rewrite Ascii.eqb_refl.
  - simpl. destruct (Ascii.eqb x c); [lia|].
    intros Ha. rewrite IH by exact Ha.
    destruct (Z.ltb_spec (Z.of_nat (String.length a)) 0); lia.
Qed.

(** [find] answers a non-negative index exactly when the character
    occurs. *)
Lemma find_present (c : ascii) (s : string) :
  0 ≤ Py.find c s ↔ (0 < Py.count c s)%nat.
Proof.
  induction s as [|a r IH]; simpl; [lia|].
  destruct (Ascii.eqb a c); [lia|].
  destruct (Z.ltb_spec (Py.find c r) 0); lia.
Qed.

End Builtins.

(** ** Round trip between [format] and [parse] *)

Section RoundTrip.

Lemma format_built (major minor patch build : Z) :
  format (Built major minor patch build) =
  format (Unbuilt major minor patch) +:+ String "+" (Py.str build).
Proof.
  unfold format. rewrite !append_assoc. reflexivity.
Qed.

Lemma count_plus_format_unbuilt (major minor patch : Z) :
  Py.count "+" (format (Unbuilt major minor patch)) = 0%nat.
Proof.
  unfold format. rewrite !count_app, !count_str by reflexivity.
  reflexivity.
Qed.

Lemma split_dot_format_unbuilt (major minor patch : Z) :
  Py.split "." (format (Unbuilt major minor patch)) =
  [Py.str major; Py.str minor; Py.str patch].
Proof.
  change (format (Unbuilt major minor patch)) with
    (Py.str major +:+ String "." (Py.str minor +:+ String "." (Py.str patch))).
  rewrite (split_app "." (Py.str major)) by (now apply count_str).
  rewrite (split_app "." (Py.str minor)) by (now apply count_str).
  now rewrite split_absent by (now apply count_str).
Qed.

Lemma length_format_unbuilt (major minor patch : Z) :
  (0 < String.length (format (Unbuilt major minor patch)))%nat.
Proof.
  unfold format. destruct (str_nonempty major) as (c & r & ->).
  simpl. lia.
Qed.

Lemma find_plus_format_unbuilt (major minor patch : Z) :
  Py.find "+" (format (Unbuilt major minor patch)) = -1.
Proof. apply find_absent, count_plus_format_unbuilt. Qed.

Lemma find_plus_format_built (major minor patch build : Z) :
  0 < Py.find "+" (format (Built major minor patch build)).
Proof.
  rewrite format_built, find_app by apply count_plus_format_unbuilt.
  pose proof (length_format_unbuilt major minor patch). lia.
Qed.

Lemma split_plus_format_built (major minor patch build : Z) :
  Py.split "+" (format (Built major minor patch build)) =
  [format (Unbuilt major minor patch); Py.str build].
Proof.
  rewrite format_built, split_app by apply count_plus_format_unbuilt.
  now rewrite split_absent by (now apply count_str).
Qed.

(** Holds for all integer components, also outside the data model. *)
Lemma parse_format (v : Version) : parse (format v) = Ok v.
Proof.
  unfold parse. destruct v as [major minor patch | major minor patch build].
  - rewrite find_plus_format_unbuilt. cbn [Z.ltb Z.compare].
    rewrite split_dot_format_unbuilt. cbn [Py.unpack3 rbind].
    now rewrite !int_str.
  - pose proof (find_plus_format_built major minor patch build) as Hfind.
    apply Z.ltb_lt in Hfind. rewrite Hfind.
    rewrite split_plus_format_built. cbn [Py.index nth_error rbind].
    rewrite split_dot_format_unbuilt. cbn [Py.unpack3 rbind].
    now rewrite !int_str.
Qed.

End RoundTrip.

(** ** Selecting the bump kind *)

Section BumpKind.

Lemma value2member_lookup (kind : VersionType) :
  _value2member_map_ !! value kind = Some kind.
Proof.
  unfold _value2member_map_.
  destruct kind; cbn [value];
    repeat (rewrite lookup_insert_ne by discriminate);
    apply lookup_insert_eq.
Qed.

Lemma value2member_absent (s : string) :
  s ≠ "major" → s ≠ "minor" → s ≠ "patch" → s ≠ "build" →
  _value2member_map_ !! s = None.
Proof.
  intros H1 H2 H3 H4. unfold _value2member_map_. cbn [value].
  rewrite !lookup_insert_ne by congruence.
  apply lookup_empty.
Qed.

End BumpKind.

(** C9. [set_bump_type] raises [ValueError] (the specification's
    InvalidBumpKind) on every string other than "major", "minor", "patch"
    and "build", and on each of these four it returns normally, having stored
    the corresponding member of [VersionType] in [bump_type] and left the
    other attributes alone. *)
Theorem set_bump_type_spec (self : GenericVersion) (s : string) :
  (s ≠ "major" → s ≠ "minor" → s ≠ "patch" → s ≠ "build" →
   set_bump_type s self = Raise ValueError) ∧
  (∀ kind : VersionType,
     s = value kind →
     set_bump_type s self =
       Ok (tt, mkGenericVersion (filename self) (Some kind)
                 (current_version self) (next_version self))) ∧
  value MAJOR = "major" ∧ value MINOR = "minor" ∧
  value PATCH = "patch" ∧ value BUILD = "build".
Proof.
  split; [|split; [|now repeat split]].
  - intros H1 H2 H3 H4. unfold set_bump_type.
    rewrite value2member_absent by assumption.
    now rewrite decide_True by reflexivity.
  - intros kind ->. unfold set_bump_type, VersionType_of_value.
    rewrite value2member_lookup.
    rewrite decide_False by discriminate.
    reflexivity.
Qed.

Lemma set_bump_type_spec_witness :
  set_bump_type "Major" (mkGenericVersion "VERSION" None "1.2.3" None) =
    Raise ValueError ∧
  set_bump_type "build" (mkGenericVersion "VERSION" None "1.2.3" None) =
    Ok (tt, mkGenericVersion "VERSION" (Some BUILD) "1.2.3" None).
Proof.
  split.
  - apply (proj1 (set_bump_type_spec _ "Major")); discriminate.
  - exact (proj1 (proj2 (set_bump_type_spec
             (mkGenericVersion "VERSION" None "1.2.3" None) "build"))
           BUILD eq_refl).
Defined.

(** ** The bump tables *)

(** C5. Round trip: for every Version of the data model (an Unbuilt triple
    of non-negative integers, or a Built quadruple whose build counter is
    moreover positive), parsing the formatted text succeeds and gives the
    Version back. *)
Theorem round_trip (v : Version) : valid v → parse (format v) = Ok v.
Proof. intros _. apply parse_format. Qed.

Lemma round_trip_witness :
  valid (Built 1 2 3 5) ∧ parse (format (Built 1 2 3 5)) = Ok (Built 1 2 3 5).
Proof.
  split; [cbn; lia|]. apply (round_trip (Built 1 2 3 5)). cbn; lia.
Defined.

Lemma returns_steps (self : GenericVersion) (v : Version) (kind : VersionType) :
  parse (current_version self) = Ok v →
  bump_type self = Some kind →
  returns get_next_version self (format (bump v kind)).
Proof.
  intros Hparse Hkind. unfold returns.
  now rewrite get_next_version_steps, Hparse, Hkind.
Qed.

(** C2. For every Built version (major, minor, patch, build) with
    non-negative components and a positive build, read from any text that
    parses to it, [get_next_version] returns the text of
    (major+1, 0, 0, 1) for a major bump, of (major, minor+1, 0, 1) for a
    minor bump, of (major, minor, patch+1, 1) for a patch bump and of
    (major, minor, patch, build+1) for a build bump: build restarts at 1
    whenever major, minor or patch changes. *)
Theorem bump_built_table (text : string) (major minor patch build : Z) :
  parse text = Ok (Built major minor patch build) →
  0 ≤ major → 0 ≤ minor → 0 ≤ patch → 0 < build →
  returns get_next_version (version_handler text MAJOR)
    (format (Built (major + 1) 0 0 1)) ∧
  returns get_next_version (version_handler text MINOR)
    (format (Built major (minor + 1) 0 1)) ∧
  returns get_next_version (version_handler text PATCH)
    (format (Built major minor (patch + 1) 1)) ∧
  returns get_next_version (version_handler text BUILD)
    (format (Built major minor patch (build + 1))).
Proof.
  intros Hparse _ _ _ _.
  repeat split;
    match goal with
    | |- returns _ (version_handler _ ?k) _ =>
        apply (returns_steps (version_handler text k) _ k Hparse eq_refl)
    end.
Qed.

Lemma bump_built_table_witness :
  returns get_next_version (version_handler "1.2.3+5" MAJOR) "2.0.0+1" ∧
  returns get_next_version (version_handler "1.2.3+5" MINOR) "1.3.0+1" ∧
  returns get_next_version (version_handler "1.2.3+5" PATCH) "1.2.4+1" ∧
  returns get_next_version (version_handler "1.2.3+5" BUILD) "1.2.3+6".
Proof.
  apply (bump_built_table "1.2.3+5" 1 2 3 5); [reflexivity | lia ..].
Defined.

(** C3. For every Unbuilt version (major, minor, patch) with non-negative
    components, read from any text that parses to it, [get_next_version]
    returns the text of (major+1, 0, 0) for a major bump, of
    (major, minor+1, 0) for a minor bump and of (major, minor, patch+1) for a
    patch bump: the fields of lower order than the bumped one become zero,
    the fields of higher order stay. *)
Theorem bump_unbuilt_table (text : string) (major minor patch : Z) :
  parse text = Ok (Unbuilt major minor patch) →
  0 ≤ major → 0 ≤ minor → 0 ≤ patch →
  returns get_next_version (version_handler text MAJOR)
    (format (Unbuilt (major + 1) 0 0)) ∧
  returns get_next_version (version_handler text MINOR)
    (format (Unbuilt major (minor + 1) 0)) ∧
  returns get_next_version (version_handler text PATCH)
    (format (Unbuilt major minor (patch + 1))).
Proof.
  intros Hparse _ _ _.
  repeat split;
    match goal with
    | |- returns _ (version_handler _ ?k) _ =>
        apply (returns_steps (version_handler text k) _ k Hparse eq_refl)
    end.
Qed.

Lemma bump_unbuilt_table_witness :
  returns get_next_version (version_handler "1.2.3" MAJOR) "2.0.0" ∧
  returns get_next_version (version_handler "1.2.3" MINOR) "1.3.0" ∧
  returns get_next_version (version_handler "1.2.3" PATCH) "1.2.4".
Proof.
  apply (bump_unbuilt_table "1.2.3" 1 2 3); [reflexivity | lia ..].
Defined.

(** C10. For every Unbuilt version (major, minor, patch), read from any
    text that parses to it (every text without [+] that parses does), a
    build bump makes [get_next_version] return the text of the same
    (major, minor, patch): nothing is incremented and nothing is raised. *)
Theorem build_bump_unbuilt_unchanged (text : string) (major minor patch : Z) :
  parse text = Ok (Unbuilt major minor patch) →
  returns get_next_version (version_handler text BUILD)
    (format (Unbuilt major minor patch)) ∧
  parse (format (Unbuilt major minor patch)) = Ok (Unbuilt major minor patch).
Proof.
  intros Hparse. split.
  - apply (returns_steps (version_handler text BUILD) _ BUILD Hparse eq_refl).
  - apply parse_format.
Qed.

Lemma build_bump_unbuilt_unchanged_witness :
  returns get_next_version (version_handler "1.2.3" BUILD) "1.2.3" ∧
  parse "1.2.3" = Ok (Unbuilt 1 2 3).
Proof.
  apply (build_bump_unbuilt_unchanged "1.2.3" 1 2 3). reflexivity.
Defined.

(** C1. On the text "1.2.3", which has no build field, a build bump does
    not raise: [get_next_version] returns "1.2.3" again, although the
    docstring of [set_bump_type] announces an error for this case. *)
Theorem build_bump_unbuilt_no_error :
  get_next_version (version_handler "1.2.3" BUILD) =
    Ok ("1.2.3", mkGenericVersion "VERSION" (Some BUILD) "1.2.3" (Some "1.2.3")).
Proof. reflexivity. Qed.

(** ** Shape and order *)

Section Shape.

Lemma is_built_bump (v : Version) (kind : VersionType) :
  is_built (bump v kind) = is_built v.
Proof. destruct v, kind; reflexivity. Qed.

Lemma count_plus_format (v : Version) :
  Py.count "+" (format v) = if is_built v then 1%nat else 0%nat.
Proof.
  destruct v as [major minor patch | major minor patch build].
  - apply count_plus_format_unbuilt.
  - rewrite format_built, count_app, count_plus_format_unbuilt.
    cbn [Py.count is_built]. now rewrite count_str by reflexivity.
Qed.

End Shape.

(** C7. Shape preservation: whenever [get_next_version] returns, on a text
    that parses to the Version [v], the returned text parses again, to a
    Version of the shape of [v]; it contains no [+] when [v] is Unbuilt and
    exactly one [+] when [v] is Built. *)
Theorem shape_preservation
    (self self' : GenericVersion) (v : Version) (text' : string) :
  parse (current_version self) = Ok v →
  get_next_version self = Ok (text', self') →
  ∃ v' : Version,
    parse text' = Ok v' ∧
    is_built v' = is_built v ∧
    Py.count "+" text' = if is_built v then 1%nat else 0%nat.
Proof.
  intros Hparse. rewrite get_next_version_steps, Hparse.
  destruct (bump_type self) as [kind|]; [|discriminate].
  intros [= <- _]. exists (bump v kind).
  split; [apply parse_format|].
  split; [apply is_built_bump|].
  now rewrite count_plus_format, is_built_bump.
Qed.

Lemma shape_preservation_witness :
  ∃ v' : Version,
    parse "1.2.4+1" = Ok v' ∧
    is_built v' = true ∧
    Py.count "+" "1.2.4+1" = 1%nat.
Proof.
  apply (shape_preservation (version_handler "1.2.3+5" PATCH)
           (with_next_version (version_handler "1.2.3+5" PATCH) "1.2.4+1")
           (Built 1 2 3 5) "1.2.4+1"); reflexivity.
Defined.

(** C6, as the specification states it, fails: a major bump of 1.2.3+5
    gives 2.0.0+1, where minor, patch and build have all gone down. *)
Lemma monotone_as_specified_fails :
  ¬ monotone_as_specified (Built 1 2 3 5) MAJOR.
Proof.
  intros (_ & _ & Hdec).
  specialize (Hdec 1%nat 2 0 eq_refl eq_refl). lia.
Qed.

(** Position by position, what a bump does to the tuple: the field at the
    rank of the kind grows by one, the fields before it stay, minor and
    patch after it become 0 and a build field after it becomes 1. *)
Lemma bump_fields (v : Version) (kind : VersionType) :
  is_built v = true ∨ kind ≠ BUILD →
  (∃ x : Z,
     fields v !! rank kind = Some x ∧
     fields (bump v kind) !! rank kind = Some (x + 1)) ∧
  (∀ j : nat, (j < rank kind)%nat → fields (bump v kind) !! j = fields v !! j) ∧
  (∀ j : nat, (rank kind < j < 3)%nat → fields (bump v kind) !! j = Some 0) ∧
  ((rank kind < 3)%nat → is_built v = true →
   fields (bump v kind) !! 3%nat = Some 1).
Proof.
  intros Hcase.
  destruct v as [major minor patch | major minor patch build], kind;
    try (destruct Hcase as [Hb | Hk]; [discriminate Hb | congruence]);
    cbn [bump fields rank is_built];
    (split; [eexists; split; reflexivity|]);
    (split; [intros [|[|[|j]]] Hj; (reflexivity || lia)|]);
    (split; [intros [|[|[|j]]] Hj; (reflexivity || lia)|]);
    intros Hrank Hbuilt; (reflexivity || discriminate || lia).
Qed.

Lemma lex_lt_at (i : nat) (a b : list Z) (x : Z) :
  (∀ j : nat, (j < i)%nat → b !! j = a !! j) →
  a !! i = Some x → b !! i = Some (x + 1) →
  lex_lt a b.
Proof.
  revert a b. induction i as [|i IH]; intros [|y a] [|z b] Hsame Ha Hb;
    try discriminate; cbn in Ha, Hb.
  - left. injection Ha as ->. injection Hb as ->. lia.
  - right. split.
    + specialize (Hsame 0%nat ltac:(lia)). cbn in Hsame. congruence.
    + apply IH; [|assumption..].
      intros j Hj. apply (Hsame (S j)). lia.
Qed.

Lemma lex_lt_le (a b : list Z) : lex_lt a b → lex_le a b.
Proof.
  revert b. induction a as [|x a IH]; intros [|y b]; cbn; try tauto.
  intros [Hlt | [Heq Hrest]]; [now left | right; auto].
Qed.

(** C6, amended. For every Version and every bump kind other than a build
    bump of an Unbuilt version, the tuple of the result is not below that
    of the input in the lexicographic order over (major, minor, patch
    [, build]), indeed strictly above it, and one field is strictly
    greater: the bumped one, that is the field of the kind (major, minor,
    patch, build in this order), which grows by exactly one (integers are
    unbounded, so nothing wraps), while every field of higher order is
    unchanged.  The fields of lower order are reset, minor and patch to 0
    and build to 1, and may therefore go down.  The shape and the number
    of fields stay. *)
Theorem bump_monotone (v : Version) (kind : VersionType) :
  is_built v = true ∨ kind ≠ BUILD →
  lex_le (fields v) (fields (bump v kind)) ∧
  lex_lt (fields v) (fields (bump v kind)) ∧
  some_field_greater (fields v) (fields (bump v kind)) ∧
  (∃ x : Z,
     fields v !! rank kind = Some x ∧
     fields (bump v kind) !! rank kind = Some (x + 1)) ∧
  (∀ j : nat, (j < rank kind)%nat → fields (bump v kind) !! j = fields v !! j) ∧
  (∀ j : nat, (rank kind < j < 3)%nat → fields (bump v kind) !! j = Some 0) ∧
  ((rank kind < 3)%nat → is_built v = true →
   fields (bump v kind) !! 3%nat = Some 1) ∧
  is_built (bump v kind) = is_built v ∧
  length (fields (bump v kind)) = length (fields v).
Proof.
  intros Hcase.
  destruct (bump_fields v kind Hcase) as ((x & Hi & Hi') & Hsame & Hzero & Hone).
  pose proof (lex_lt_at (rank kind) _ _ x Hsame Hi Hi') as Hlt.
  split; [now apply lex_lt_le|].
  split; [exact Hlt|].
  split; [exists (rank kind), x, (x + 1); repeat split; [assumption.. | lia]|].
  split; [now exists x|].
  split; [exact Hsame|].
  split; [exact Hzero|].
  split; [exact Hone|].
  split; [apply is_built_bump|].
  now destruct v, kind.
Qed.

Lemma bump_monotone_witness :
  lex_le [1; 2; 3; 5] [2; 0; 0; 1] ∧
  lex_lt [1; 2; 3; 5] [2; 0; 0; 1] ∧
  some_field_greater [1; 2; 3; 5] [2; 0; 0; 1] ∧
  (∃ x : Z,
     [1; 2; 3; 5] !! 0%nat = Some x ∧ [2; 0; 0; 1] !! 0%nat = Some (x + 1)) ∧
  (∀ j : nat, (j < 0)%nat → [2; 0; 0; 1] !! j = [1; 2; 3; 5] !! j) ∧
  (∀ j : nat, (0 < j < 3)%nat → [2; 0; 0; 1] !! j = Some 0) ∧
  ((0 < 3)%nat → true = true → [2; 0; 0; 1] !! 3%nat = Some 1) ∧
  true = true ∧
  length [2; 0; 0; 1] = length [1; 2; 3; 5].
Proof.
  exact (bump_monotone (Built 1 2 3 5) MAJOR (or_introl eq_refl)).
Defined.

(** ** When parsing fails *)

Section ParseFailure.

Lemma length_split (c : ascii) (s : string) :
  length (Py.split c s) = S (Py.count c s).
Proof.
  induction s as [|a r IH]; cbn [Py.split Py.count]; [reflexivity|].
  destruct (Ascii.eqb a c); cbn [length]; [now rewrite IH|].
  destruct (Py.split c r); cbn in *; lia.
Qed.

Lemma int_error (f : string) (e : exception) :
  Py.int f = Raise e → e = ValueError.
Proof. unfold Py.int. destruct (Py.int_signed _); congruence. Qed.

Lemma int_cases (f : string) :
  (∃ z, Py.int f = Ok z) ∨ Py.int f = Raise ValueError.
Proof. unfold Py.int. destruct (Py.int_signed _); eauto. Qed.

Lemma unpack3_error {A} (l : list A) (e : exception) :
  Py.unpack3 l = Raise e → e = ValueError.
Proof. destruct l as [|a [|b [|c [|d l]]]]; cbn; congruence. Qed.

Lemma read_unbuilt_fails (l : list string) :
  is_Raise (read_unbuilt l) ↔
  length l ≠ 3%nat ∨ Exists (λ f, Py.int f = Raise ValueError) l.
Proof.
  unfold read_unbuilt.
  destruct l as [|a [|b [|c [|d l]]]]; cbn [Py.unpack3 rbind is_Raise length];
    try (split; [intros _; left; lia | easy]).
  rewrite !Exists_cons, Exists_nil.
  destruct (int_cases a) as [[za Ha] | Ha]; rewrite Ha; cbn [rbind is_Raise];
    [|tauto].
  destruct (int_cases b) as [[zb Hb] | Hb]; rewrite Hb; cbn [rbind is_Raise];
    [|tauto].
  destruct (int_cases c) as [[zc Hc] | Hc]; rewrite Hc; cbn [rbind is_Raise];
    [|tauto].
  split; [easy|]. intros [Hl | [H | [H | [H | []]]]]; [lia | discriminate..].
Qed.

Lemma read_built_fails (l : list string) (build_str : string) :
  is_Raise (read_built l build_str) ↔
  length l ≠ 3%nat ∨
  Exists (λ f, Py.int f = Raise ValueError) (l ++ [build_str]).
Proof.
  unfold read_built.
  destruct l as [|a [|b [|c [|d l]]]];
    cbn [Py.unpack3 rbind is_Raise length app];
    try (split; [intros _; left; lia | easy]).
  rewrite !Exists_cons, Exists_nil.
  destruct (int_cases a) as [[za Ha] | Ha]; rewrite Ha; cbn [rbind is_Raise];
    [|tauto].
  destruct (int_cases b) as [[zb Hb] | Hb]; rewrite Hb; cbn [rbind is_Raise];
    [|tauto].
  destruct (int_cases c) as [[zc Hc] | Hc]; rewrite Hc; cbn [rbind is_Raise];
    [|tauto].
  destruct (int_cases build_str) as [[zd Hd] | Hd]; rewrite Hd;
    cbn [rbind is_Raise]; [|tauto].
  split; [easy|].
  intros [Hl | [H | [H | [H | [H | []]]]]]; [lia | discriminate..].
Qed.

Lemma read_unbuilt_error (l : list string) (e : exception) :
  read_unbuilt l = Raise e → e = ValueError.
Proof.
  unfold read_unbuilt.
  destruct (Py.unpack3 l) as [[[a b] c]|e'] eqn:Hl; cbn [rbind];
    [|intros [= <-]; eapply unpack3_error; eassumption].
  destruct (int_cases a) as [[za Ha] | Ha]; rewrite Ha; cbn [rbind];
    [|congruence].
  destruct (int_cases b) as [[zb Hb] | Hb]; rewrite Hb; cbn [rbind];
    [|congruence].
  destruct (int_cases c) as [[zc Hc] | Hc]; rewrite Hc; cbn [rbind];
    congruence.
Qed.

Lemma read_built_error (l : list string) (build_str : string) (e : exception) :
  read_built l build_str = Raise e → e = ValueError.
Proof.
  unfold read_built.
  destruct (Py.unpack3 l) as [[[a b] c]|e'] eqn:Hl; cbn [rbind];
    [|intros [= <-]; eapply unpack3_error; eassumption].
  destruct (int_cases a) as [[za Ha] | Ha]; rewrite Ha; cbn [rbind];
    [|congruence].
  destruct (int_cases b) as [[zb Hb] | Hb]; rewrite Hb; cbn [rbind];
    [|congruence].
  destruct (int_cases c) as [[zc Hc] | Hc]; rewrite Hc; cbn [rbind];
    [|congruence].
  destruct (int_cases build_str) as [[zd Hd] | Hd]; rewrite Hd; cbn [rbind];
    congruence.
Qed.

(** With a [+] after the first character, the two indexings succeed. *)
Lemma parse_built_path (text : string) :
  0 < Py.find "+" text →
  ∃ (head build_str : string) (rest : list string),
    Py.split "+" text = head :: build_str :: rest ∧
    parse text = read_built (Py.split "." head) build_str.
Proof.
  intros Hfind.
  assert (0 < Py.count "+" text)%nat as Hcount by (apply find_present; lia).
  pose proof (length_split "+" text) as Hlen.
  destruct (Py.split "+" text) as [|head [|build_str rest]] eqn:Hsplit;
    cbn [length] in Hlen; try lia.
  exists head, build_str, rest. split; [reflexivity|].
  unfold parse. apply Z.ltb_lt in Hfind. rewrite Hfind, Hsplit.
  reflexivity.
Qed.

(** Without any [+], the whole text is the version part. *)
Lemma parse_unbuilt_path (text : string) :
  Py.find "+" text ≤ 0 →
  parse text = read_unbuilt (Py.split "." text).
Proof.
  intros Hfind. unfold parse.
  destruct (Z.ltb_spec 0 (Py.find "+" text)); [lia | reflexivity].
Qed.

Lemma parse_error (text : string) (e : exception) :
  parse text = Raise e → e = ValueError.
Proof.
  destruct (Z.lt_ge_cases 0 (Py.find "+" text)) as [Hfind | Hfind].
  - destruct (parse_built_path text Hfind) as (h & b & r & _ & ->).
    apply read_built_error.
  - rewrite parse_unbuilt_path by assumption. apply read_unbuilt_error.
Qed.

Lemma parse_fails_malformed (text : string) :
  Py.find "+" text ≠ 0 →
  is_Raise (parse text) ↔ malformed text.
Proof.
  intros Hfirst. unfold malformed, version_part, build_field.
  destruct (Z.lt_ge_cases 0 (Py.find "+" text)) as [Hfind | Hfind].
  - destruct (parse_built_path text Hfind) as (h & b & r & -> & ->).
    cbn [hd tl take]. apply read_built_fails.
  - assert (Py.count "+" text = 0%nat) as Hcount.
    { destruct (find_present "+" text) as [_ Hback].
      destruct (Py.count "+" text); [reflexivity|].
      specialize (Hback ltac:(lia)). lia. }
    rewrite parse_unbuilt_path by lia.
    rewrite (split_absent "+") by assumption.
    cbn [hd tl take]. rewrite app_nil_r. apply read_unbuilt_fails.
Qed.

End ParseFailure.

(** ** Plain literals are accepted by [int] *)

Section Literals.

Lemma digit_char (c : ascii) :
  Py.is_digit c = true →
  Py.is_space c = false ∧ Ascii.eqb c "+" = false ∧ Ascii.eqb c "-" = false ∧
  ∃ d : Z, Py.digit_value c = Some d ∧ 0 ≤ d.
Proof.
  unfold Py.is_digit, Py.digit_value, Py.is_space.
  destruct (_ && _)%bool eqn:Hrange; [intros _ | discriminate].
  apply andb_true_iff in Hrange as [Hlo Hhi].
  apply N.leb_le in Hlo, Hhi.
  repeat split.
  - destruct (N.leb_spec 9 (N_of_ascii c)), (N.leb_spec (N_of_ascii c) 13),
      (N.eqb_spec (N_of_ascii c) 32); cbn; first [reflexivity | lia].
  - destruct (Ascii.eqb_spec c "+") as [-> |]; [|reflexivity].
    exfalso. vm_compute in Hlo. now apply Hlo.
  - destruct (Ascii.eqb_spec c "-") as [-> |]; [|reflexivity].
    exfalso. vm_compute in Hlo. now apply Hlo.
  - eexists. split; [reflexivity | lia].
Qed.

Lemma scan_all_digits (s : string) :
  all_chars Py.is_digit s = true →
  ∀ acc : Z, 0 ≤ acc →
  ∃ n : Z, Py.scan_digits Py.AfterDigit acc s = Some (n, "") ∧ 0 ≤ n.
Proof.
  induction s as [|c r IH]; cbn [all_chars Py.scan_digits Py.scan_stop].
  - intros _ acc Hacc. now exists acc.
  - rewrite andb_true_iff. intros [Hc Hr] acc Hacc.
    destruct (digit_char c Hc) as (_ & _ & _ & d & -> & Hd).
    apply IH; [assumption | lia].
Qed.

Lemma int_spec_literal (f : string) :
  spec_literal f = true → ∃ z : Z, Py.int f = Ok z ∧ 0 ≤ z.
Proof.
  unfold spec_literal. rewrite andb_true_iff. intros [Hne Hdigits].
  destruct f as [|c r]; [discriminate|].
  cbn [all_chars] in Hdigits. apply andb_true_iff in Hdigits as [Hc Hr].
  destruct (digit_char c Hc) as (Hsp & Hplus & Hminus & d & Hval & Hd).
  unfold Py.int. cbn [Py.skip_space]. rewrite Hsp.
  unfold Py.int_signed. rewrite Hplus, Hminus.
  cbn [Py.scan_digits]. rewrite Hval.
  destruct (scan_all_digits r Hr (10 * 0 + d) ltac:(lia)) as (n & -> & Hn).
  cbn [Py.all_space]. exists (1 * n). split; [reflexivity | lia].
Qed.

Lemma find_zero (c : ascii) (s : string) :
  Py.find c s = 0 → ∃ r, s = String c r.
Proof.
  destruct s as [|a r]; cbn [Py.find]; [discriminate|].
  destruct (Ascii.eqb_spec a c) as [-> | _]; [eauto|].
  pose proof (find_ge c r).
  destruct (Z.ltb_spec (Py.find c r) 0); lia.
Qed.

(** Whatever the code rejects, the specification rejects too. *)
Lemma parse_fails_specified (text : string) :
  is_Raise (parse text) → malformed_as_specified text = true.
Proof.
  intros Hfail. unfold malformed_as_specified.
  destruct (Z.eq_dec (Py.find "+" text) 0) as [Hzero | Hfirst].
  - destruct (find_zero _ _ Hzero) as [r ->]. reflexivity.
  - apply parse_fails_malformed in Hfail; [|assumption].
    destruct Hfail as [Hlen | Hbad].
    + unfold version_part in Hlen.
      apply Nat.eqb_neq in Hlen. now rewrite Hlen.
    + apply orb_true_iff. right. apply negb_true_iff.
      apply not_true_is_false. intros Hall.
      rewrite forallb_forall in Hall.
      apply Exists_exists in Hbad as (f & Hin & Hf).
      assert (In f (Py.split "." (hd "" (Py.split "+" text))
                    ++ tl (Py.split "+" text))) as Hin'.
      { unfold version_part, build_field in Hin.
        apply list_elem_of_In in Hin.
        apply in_app_iff in Hin as [Hin | Hin]; apply in_app_iff;
          [now left | right].
        destruct (tl (Py.split "+" text)) as [|b l]; [destruct Hin|].
        cbn in Hin. destruct Hin as [<- | []]. now left. }
      destruct (int_spec_literal f (Hall f Hin')) as (z & Hz & _).
      congruence.
Qed.

End Literals.

(** C4, as the specification states it, fails: the text "1.2.3+4+5" has
    three [+]-pieces, so the stated condition holds, yet the code reads it
    as 1.2.3+4 and does not fail. *)
Lemma parse_fails_as_specified_fails :
  ¬ (is_Raise (parse "1.2.3+4+5") ↔ malformed_as_specified "1.2.3+4+5" = true).
Proof.
  intros [_ Hback]. exact (Hback eq_refl).
Qed.

(** C4, amended. Parsing fails only with [ValueError] (the specification's
    FormatError), and whenever it fails the condition of the specification
    holds.  On a text that does not begin with [+], it fails if and only if
    the [.]-split of the version part (the piece before the first [+]) has
    not exactly three fields, or [int()] rejects one of these fields or the
    build field (the piece after the first [+], up to the next [+]).  In
    particular "1.2", "1.2.x", "1.2.3+" and the empty text fail.  Pieces
    after a second [+] are ignored and a signed field is read, so
    "1.2.3+4+5" and "-1.2.3" parse. *)
Theorem parse_fails_iff (text : string) :
  (Py.find "+" text ≠ 0 → (is_Raise (parse text) ↔ malformed text)) ∧
  (is_Raise (parse text) → malformed_as_specified text = true) ∧
  (∀ e : exception, parse text = Raise e → e = ValueError) ∧
  parse "1.2" = Raise ValueError ∧
  parse "1.2.x" = Raise ValueError ∧
  parse "1.2.3+" = Raise ValueError ∧
  parse "" = Raise ValueError ∧
  parse "1.2.3+4+5" = Ok (Built 1 2 3 4) ∧
  parse "-1.2.3" = Ok (Unbuilt (-1) 2 3).
Proof.
  split; [apply parse_fails_malformed|].
  split; [apply parse_fails_specified|].
  split; [apply parse_error|].
  now repeat split.
Qed.

Lemma parse_fails_iff_witness :
  Py.find "+" "1.2.3+" ≠ 0 ∧
  (is_Raise (parse "1.2.3+") ↔ malformed "1.2.3+") ∧
  malformed_as_specified "1.2.3+" = true.
Proof.
  assert (Py.find "+" "1.2.3+" ≠ 0) as Hfirst by (vm_compute; discriminate).
  split; [exact Hfirst|]. split.
  - exact (proj1 (parse_fails_iff "1.2.3+") Hfirst).
  - exact (proj1 (proj2 (parse_fails_iff "1.2.3+")) I).
Defined.

(** ** The dispatch of [get_next_version] *)

Lemma read_built_shape (l : list string) (build_str : string) (v : Version) :
  read_built l build_str = Ok v → is_built v = true.
Proof.
  unfold read_built.
  destruct (Py.unpack3 l) as [[[a b] c]|]; cbn [rbind]; [|discriminate].
  destruct (Py.int a); cbn [rbind]; [|discriminate].
  destruct (Py.int b); cbn [rbind]; [|discriminate].
  destruct (Py.int c); cbn [rbind]; [|discriminate].
  destruct (Py.int build_str); cbn [rbind]; [|discriminate].
  now intros [= <-].
Qed.

Lemma read_unbuilt_shape (l : list string) (v : Version) :
  read_unbuilt l = Ok v → is_built v = false.
Proof.
  unfold read_unbuilt.
  destruct (Py.unpack3 l) as [[[a b] c]|]; cbn [rbind]; [|discriminate].
  destruct (Py.int a); cbn [rbind]; [|discriminate].
  destruct (Py.int b); cbn [rbind]; [|discriminate].
  destruct (Py.int c); cbn [rbind]; [|discriminate].
  now intros [= <-].
Qed.

(** The shape of a parsed Version is decided by the test on [find]
    alone. *)
Lemma parse_shape (text : string) (v : Version) :
  parse text = Ok v → is_built v = (0 <? Py.find "+" text).
Proof.
  destruct (Z.ltb_spec 0 (Py.find "+" text)) as [Hfind | Hfind].
  - destruct (parse_built_path text Hfind) as (h & b & r & _ & ->).
    apply read_built_shape.
  - rewrite parse_unbuilt_path by assumption. apply read_unbuilt_shape.
Qed.

(** A text without [+] can only parse to an Unbuilt version. *)
Lemma parse_without_plus (text : string) (v : Version) :
  Py.count "+" text = 0%nat → parse text = Ok v → is_built v = false.
Proof.
  intros Hcount Hparse. rewrite (parse_shape text v Hparse).
  now rewrite find_absent.
Qed.


Lemma get_next_version_dispatch (self : GenericVersion) :
  get_next_version self =
    if 0 <? Py.find "+" (current_version self)
    then _get_next_version_with_build self
    else _get_next_version_without_build self.
Proof.
  unfold get_next_version, bind, get_current_version.
  now destruct (0 <? Py.find "+" (current_version self)).
Qed.

(** C8. The text "+1.2.3" contains a [+], as its first character, and is
    nevertheless handled by the method without build, which returns
    "1.2.4" for a patch bump; the method with build would have raised. *)
Theorem leading_plus_not_built_path :
  Py.find "+" "+1.2.3" = 0 ∧
  get_next_version (version_handler "+1.2.3" PATCH) =
    _get_next_version_without_build (version_handler "+1.2.3" PATCH) ∧
  get_next_version (version_handler "+1.2.3" PATCH) =
    Ok ("1.2.4", with_next_version (version_handler "+1.2.3" PATCH) "1.2.4") ∧
  _get_next_version_with_build (version_handler "+1.2.3" PATCH) =
    Raise ValueError.
Proof. now repeat split. Qed.


(** ** The scenarios of the specification, run on the code *)

Example scenario_major_unbuilt :
  returns get_next_version (version_handler "1.0.0" MAJOR) "2.0.0".
Proof. reflexivity. Qed.

Example scenario_minor_unbuilt :
  returns get_next_version (version_handler "1.2.3" MINOR) "1.3.0".
Proof. reflexivity. Qed.

Example scenario_patch_unbuilt :
  returns get_next_version (version_handler "1.2.3" PATCH) "1.2.4".
Proof. reflexivity. Qed.

Example scenario_build_built :
  returns get_next_version (version_handler "1.2.3+5" BUILD) "1.2.3+6".
Proof. reflexivity. Qed.

Example scenario_patch_built :
  returns get_next_version (version_handler "1.2.3+5" PATCH) "1.2.4+1".
Proof. reflexivity. Qed.

Example scenario_major_built :
  returns get_next_version (version_handler "1.2.3+5" MAJOR) "2.0.0+1".
Proof. reflexivity. Qed.

(** What [int] accepts beyond plain literals. *)
Example int_accepts :
  Py.int " 12 " = Ok 12 ∧ Py.int "+12" = Ok 12 ∧ Py.int "-12" = Ok (-12) ∧
  Py.int "1_2" = Ok 12 ∧ Py.int "012" = Ok 12.
Proof. now repeat split. Qed.

Example int_rejects :
  Py.int "" = Raise ValueError ∧ Py.int "x" = Raise ValueError ∧
  Py.int "+ 1" = Raise ValueError ∧ Py.int "1__2" = Raise ValueError ∧
  Py.int "_1" = Raise ValueError ∧ Py.int "1_" = Raise ValueError ∧
  Py.int "1 2" = Raise ValueError ∧ Py.int "--1" = Raise ValueError.
Proof. now repeat split. Qed.

(** Before [set_bump_type] has run, the attribute is missing; the reads of
    the text come first, so a malformed text wins over the missing
    attribute. *)
Example unset_bump_type :
  get_next_version (mkGenericVersion "VERSION" None "1.2.3" None) =
    Raise AttributeError ∧
  get_next_version (mkGenericVersion "VERSION" None "1.2" None) =
    Raise ValueError.
Proof. now split. Qed.

(** Called directly on a text without [+], the method with build fails on
    its first indexing. *)
Example with_build_without_plus :
  _get_next_version_with_build (version_handler "1.2.3" PATCH) =
    Raise IndexError.
Proof. reflexivity. Qed.

(** * Further properties of the methods *)

(** ** What a successful call tells *)

Section Calls.

Lemma get_next_version_inv (self self' : GenericVersion) (s : string) :
  get_next_version self = Ok (s, self') →
  ∃ (v : Version) (kind : VersionType),
    parse (current_version self) = Ok v ∧
    bump_type self = Some kind ∧
    s = format (bump v kind) ∧
    self' = with_next_version self s.
Proof.
  rewrite get_next_version_steps.
  destruct (parse (current_version self)) as [v|e]; [|discriminate].
  destruct (bump_type self) as [kind|] eqn:Hkind; [|discriminate].
  intros [= <- <-]. now exists v, kind.
Qed.

Lemma format_inj (v v' : Version) : format v = format v' → v = v'.
Proof.
  intros Heq. pose proof (parse_format v) as Hv.
  rewrite Heq, parse_format in Hv. congruence.
Qed.

Lemma bump_valid (v : Version) (kind : VersionType) :
  valid v → valid (bump v kind).
Proof. destruct v, kind; cbn; lia. Qed.

Lemma bump_fixed (v : Version) (kind : VersionType) :
  bump v kind = v ↔ is_built v = false ∧ kind = BUILD.
Proof.
  destruct v, kind; cbn; split;
    try (intros [= ?]; lia); try (intros [? ?]; discriminate); auto.
Qed.

Lemma bump_absorbs (v : Version) (low high : VersionType) :
  (rank high < rank low)%nat → bump (bump v low) high = bump v high.
Proof. destruct v, low, high; cbn; intros Hrank; (lia || reflexivity). Qed.

Lemma all_chars_app (P : ascii → bool) (a b : string) :
  all_chars P (a +:+ b) = all_chars P a && all_chars P b.
Proof.
  induction a as [|c a IH]; [reflexivity|].
  change (P c && all_chars P (a +:+ b) = P c && all_chars P a && all_chars P b).
  rewrite IH. apply andb_assoc.
Qed.

Lemma all_chars_str_version (z : Z) :
  all_chars is_version_char (Py.str z) = true.
Proof.
  eapply all_chars_weaken; [|apply all_chars_str].
  intros c Hc. unfold is_version_char. unfold is_digit_or_minus in Hc.
  now rewrite Hc.
Qed.

Lemma all_chars_format (v : Version) :
  all_chars is_version_char (format v) = true.
Proof.
  destruct v; unfold format; rewrite !all_chars_app, !all_chars_str_version;
    reflexivity.
Qed.

End Calls.

(** X1. [get_next_version] never raises [IndexError]: the test on [find]
    guarantees the two pieces the method with build indexes.  What it
    raises is [ValueError], or [AttributeError] when no bump type was
    set, and only [ValueError] once one is set. *)
Theorem get_next_version_raises (self : GenericVersion) (e : exception) :
  get_next_version self = Raise e →
  (e = ValueError ∨ e = AttributeError) ∧
  (is_Some (bump_type self) → e = ValueError).
Proof.
  rewrite get_next_version_steps.
  destruct (parse (current_version self)) as [v|e'] eqn:Hparse.
  - destruct (bump_type self) as [kind|]; [discriminate|].
    intros [= <-]. split; [now right|]. intros [k Hk]. discriminate.
  - intros [= <-]. apply parse_error in Hparse as ->. now split; [left|].
Qed.

Lemma get_next_version_raises_witness :
  (ValueError = ValueError ∨ ValueError = AttributeError) ∧
  (is_Some (Some PATCH) → ValueError = ValueError).
Proof.
  apply (get_next_version_raises (version_handler "1.2" PATCH) ValueError).
  reflexivity.
Defined.

(** X2. Called on a text without any [+], the method with build raises
    [IndexError] at its first line, whatever else the text holds. *)
Theorem with_build_requires_plus (self : GenericVersion) :
  Py.count "+" (current_version self) = 0%nat →
  _get_next_version_with_build self = Raise IndexError.
Proof.
  intros Hcount.
  unfold _get_next_version_with_build, bind, lift, get_current_version.
  now rewrite (split_absent "+") by assumption.
Qed.

Lemma with_build_requires_plus_witness :
  _get_next_version_with_build (version_handler "1.2.3" BUILD) =
    Raise IndexError.
Proof.
  apply (with_build_requires_plus (version_handler "1.2.3" BUILD)).
  reflexivity.
Defined.

(** X3. A successful [get_next_version] stores what it returns: afterwards
    [next_version] is the returned text, and [filename], [bump_type] and
    [current_version] are as before. *)
Theorem get_next_version_stores (self self' : GenericVersion) (s : string) :
  get_next_version self = Ok (s, self') →
  next_version self' = Some s ∧
  filename self' = filename self ∧
  bump_type self' = bump_type self ∧
  current_version self' = current_version self.
Proof.
  intros Hcall.
  destruct (get_next_version_inv _ _ _ Hcall) as (v & kind & _ & _ & _ & ->).
  now repeat split.
Qed.

Lemma get_next_version_stores_witness :
  next_version (with_next_version (version_handler "1.2.3" PATCH) "1.2.4") =
    Some "1.2.4" ∧
  filename (with_next_version (version_handler "1.2.3" PATCH) "1.2.4") =
    "VERSION" ∧
  bump_type (with_next_version (version_handler "1.2.3" PATCH) "1.2.4") =
    Some PATCH ∧
  current_version (with_next_version (version_handler "1.2.3" PATCH) "1.2.4") =
    "1.2.3".
Proof.
  apply (get_next_version_stores (version_handler "1.2.3" PATCH)
           (with_next_version (version_handler "1.2.3" PATCH) "1.2.4") "1.2.4").
  reflexivity.
Defined.

(** X4. Calling [get_next_version] again on the object it left returns
    the same text and leaves the same object: the bump is computed from
    [current_version], which the method does not change, so calls do not
    add up. *)
Theorem get_next_version_again (self self' : GenericVersion) (s : string) :
  get_next_version self = Ok (s, self') →
  get_next_version self' = Ok (s, self').
Proof.
  intros Hcall.
  destruct (get_next_version_inv _ _ _ Hcall)
    as (v & kind & Hparse & Hkind & -> & ->).
  rewrite get_next_version_steps. cbn [with_next_version current_version bump_type].
  now rewrite Hparse, Hkind.
Qed.

Lemma get_next_version_again_witness :
  get_next_version (with_next_version (version_handler "1.2.3+5" BUILD) "1.2.3+6") =
    Ok ("1.2.3+6", with_next_version (version_handler "1.2.3+5" BUILD) "1.2.3+6").
Proof.
  apply (get_next_version_again (version_handler "1.2.3+5" BUILD)).
  reflexivity.
Defined.

(** X5. The data-model invariant is kept: when the text parses to a
    Version without negative component and with a positive build counter
    (if it has one), the text [get_next_version] returns parses to such a
    Version again. *)
Theorem get_next_version_keeps_valid
    (self self' : GenericVersion) (v : Version) (s : string) :
  parse (current_version self) = Ok v →
  valid v →
  get_next_version self = Ok (s, self') →
  ∃ v' : Version, parse s = Ok v' ∧ valid v'.
Proof.
  intros Hparse Hvalid Hcall.
  destruct (get_next_version_inv _ _ _ Hcall)
    as (v0 & kind & Hparse0 & _ & -> & _).
  assert (v0 = v) as -> by congruence.
  exists (bump v kind). split; [apply parse_format | now apply bump_valid].
Qed.

Lemma get_next_version_keeps_valid_witness :
  ∃ v' : Version, parse "1.3.0+1" = Ok v' ∧ valid v'.
Proof.
  apply (get_next_version_keeps_valid (version_handler "1.2.3+5" MINOR)
           (with_next_version (version_handler "1.2.3+5" MINOR) "1.3.0+1")
           (Built 1 2 3 5) "1.3.0+1"); [reflexivity | cbn; lia | reflexivity].
Defined.

(** X6. The returned text is the canonical text of the version read
    exactly in one case: a build bump of a version without build field.
    Every other bump returns a different text. *)
Theorem get_next_version_unchanged_iff
    (self : GenericVersion) (v : Version) (kind : VersionType) :
  parse (current_version self) = Ok v →
  bump_type self = Some kind →
  ∃ s : string,
    returns get_next_version self s ∧
    (s = format v ↔ is_built v = false ∧ kind = BUILD).
Proof.
  intros Hparse Hkind. exists (format (bump v kind)).
  split; [now apply returns_steps|].
  rewrite <- bump_fixed. split; [apply format_inj | now intros ->].
Qed.

Lemma get_next_version_unchanged_iff_witness :
  ∃ s : string,
    returns get_next_version (version_handler "1.2.3" BUILD) s ∧
    (s = format (Unbuilt 1 2 3) ↔ is_built (Unbuilt 1 2 3) = false ∧ BUILD = BUILD).
Proof.
  apply (get_next_version_unchanged_iff (version_handler "1.2.3" BUILD)
           (Unbuilt 1 2 3) BUILD); reflexivity.
Defined.

(** X7. Whatever follows a second [+] is ignored: with a non-empty
    [head] and a [build] piece, both free of [+], the text
    [head+build+rest] is read exactly as [head+build]. *)
Theorem parse_ignores_after_second_plus (head build rest : string) :
  head ≠ "" →
  Py.count "+" head = 0%nat →
  Py.count "+" build = 0%nat →
  parse (head +:+ String "+" (build +:+ String "+" rest)) =
  parse (head +:+ String "+" build).
Proof.
  intros Hne Hhead Hbuild.
  assert (∀ tail : string, 0 < Py.find "+" (head +:+ String "+" tail)) as Hfind.
  { intros tail. rewrite find_app by assumption.
    destruct head; [congruence | cbn [String.length]; lia]. }
  destruct (parse_built_path _ (Hfind (build +:+ String "+" rest)))
    as (h1 & b1 & r1 & Hsplit1 & ->).
  destruct (parse_built_path _ (Hfind build))
    as (h2 & b2 & r2 & Hsplit2 & ->).
  rewrite split_app in Hsplit1, Hsplit2 by assumption.
  rewrite split_app in Hsplit1 by assumption.
  rewrite split_absent in Hsplit2 by assumption.
  congruence.
Qed.

Lemma parse_ignores_after_second_plus_witness :
  parse "1.2.3+4+5.6" = parse "1.2.3+4".
Proof.
  apply (parse_ignores_after_second_plus "1.2.3" "4" "5.6");
    [discriminate | reflexivity | reflexivity].
Defined.

(** X8. A returned text is made of digits, dots, [+] and [-] only:
    blanks and underscores that [int()] tolerated in the fields of the
    input do not come back. *)
Theorem get_next_version_chars (self self' : GenericVersion) (s : string) :
  get_next_version self = Ok (s, self') →
  all_chars is_version_char s = true ∧
  Py.count " " s = 0%nat ∧ Py.count "_" s = 0%nat.
Proof.
  intros Hcall.
  destruct (get_next_version_inv _ _ _ Hcall) as (v & kind & _ & _ & -> & _).
  pose proof (all_chars_format (bump v kind)) as Hchars.
  split; [exact Hchars|].
  split; (eapply count_all_chars; [|exact Hchars]; reflexivity).
Qed.

Lemma get_next_version_chars_witness :
  all_chars is_version_char "1.20.4" = true ∧
  Py.count " " "1.20.4" = 0%nat ∧ Py.count "_" "1.20.4" = 0%nat.
Proof.
  apply (get_next_version_chars (version_handler " 1.2_0.3" PATCH)
           (with_next_version (version_handler " 1.2_0.3" PATCH) "1.20.4")
           "1.20.4").
  reflexivity.
Defined.

(** X9. Which method [get_next_version] runs, read off the text: the
    method with build when the text has a [+] after a first character
    that is not itself a [+]; the method without build when the text has
    no [+] at all or begins with one. *)
Theorem get_next_version_selects (self : GenericVersion) :
  (∀ (c : ascii) (r : string),
     current_version self = String c r →
     c ≠ "+"%char →
     (0 < Py.count "+" r)%nat →
     get_next_version self = _get_next_version_with_build self) ∧
  (Py.count "+" (current_version self) = 0%nat ∨
   (∃ r : string, current_version self = String "+" r) →
   get_next_version self = _get_next_version_without_build self).
Proof.
  rewrite get_next_version_dispatch. split.
  - intros c r -> Hc Hcount. cbn [Py.find].
    destruct (Ascii.eqb_spec c "+") as [-> | _]; [congruence|].
    apply find_present in Hcount.
    destruct (Z.ltb_spec (Py.find "+" r) 0) as [Hlt | Hge]; [lia|].
    destruct (Z.ltb_spec 0 (Py.find "+" r + 1)); [reflexivity | lia].
  - intros [Hcount | [r ->]].
    + now rewrite find_absent.
    + reflexivity.
Qed.

Lemma get_next_version_selects_witness :
  get_next_version (version_handler "1.2.3+5" PATCH) =
    _get_next_version_with_build (version_handler "1.2.3+5" PATCH) ∧
  get_next_version (version_handler "1.2.3" PATCH) =
    _get_next_version_without_build (version_handler "1.2.3" PATCH).
Proof.
  split.
  - apply (proj1 (get_next_version_selects (version_handler "1.2.3+5" PATCH))
             "1"%char ".2.3+5"); [reflexivity | discriminate | cbn; lia].
  - apply (proj2 (get_next_version_selects (version_handler "1.2.3" PATCH))).
    left. reflexivity.
Defined.

(** X10. Without a bump type ([set_bump_type] was not called),
    [get_next_version] never returns: on a text that parses it raises
    [AttributeError], on any other text the [ValueError] of the reads,
    which come first. *)
Theorem get_next_version_unset (self : GenericVersion) :
  bump_type self = None →
  (∀ v : Version,
     parse (current_version self) = Ok v →
     get_next_version self = Raise AttributeError) ∧
  (is_Raise (parse (current_version self)) →
   get_next_version self = Raise ValueError) ∧
  (∀ (s : string) (self' : GenericVersion),
     get_next_version self ≠ Ok (s, self')).
Proof.
  intros Hunset. rewrite get_next_version_steps, Hunset.
  split; [|split].
  - now intros v ->.
  - destruct (parse (current_version self)) as [v|e] eqn:Hparse; [easy|].
    intros _. now apply parse_error in Hparse as ->.
  - intros s self'. now destruct (parse (current_version self)).
Qed.

Lemma get_next_version_unset_witness :
  get_next_version (mkGenericVersion "VERSION" None "1.2.3+5" None) =
    Raise AttributeError.
Proof.
  apply (proj1 (get_next_version_unset
                  (mkGenericVersion "VERSION" None "1.2.3+5" None) eq_refl)
           (Built 1 2 3 5)).
  reflexivity.
Defined.

(** X11. [set_bump_type] followed by [get_next_version], as the script
    calls them: on a text that parses, and for each of the four accepted
    strings, the pair returns the text of the bumped version, whatever
    bump type or next version the object held before. *)
Theorem set_then_get (self : GenericVersion) (v : Version) (kind : VersionType) :
  parse (current_version self) = Ok v →
  (run set_bump_type (value kind) ;; get_next_version) self =
    Ok (format (bump v kind),
        mkGenericVersion (filename self) (Some kind) (current_version self)
          (Some (format (bump v kind)))).
Proof.
  intros Hparse.
  assert (set_bump_type (value kind) self =
          Ok (tt, mkGenericVersion (filename self) (Some kind)
                    (current_version self) (next_version self))) as Hset.
  { unfold set_bump_type, VersionType_of_value, bind, lift.
    rewrite value2member_lookup.
    now rewrite decide_False by discriminate. }
  unfold bind at 1. rewrite Hset, get_next_version_steps.
  cbn [current_version bump_type]. now rewrite Hparse.
Qed.

Lemma set_then_get_witness :
  (run set_bump_type "minor" ;; get_next_version)
    (mkGenericVersion "VERSION" (Some BUILD) "1.2.3+5" (Some "old")) =
    Ok ("1.3.0+1",
        mkGenericVersion "VERSION" (Some MINOR) "1.2.3+5" (Some "1.3.0+1")).
Proof.
  apply (set_then_get
           (mkGenericVersion "VERSION" (Some BUILD) "1.2.3+5" (Some "old"))
           (Built 1 2 3 5) MINOR).
  reflexivity.
Defined.

(** X12. A bump of higher order wipes out an earlier bump of lower
    order: bumping with [low], then bumping the returned text with
    [high], returns what bumping the original text with [high] returns. *)
Theorem higher_bump_absorbs
    (text : string) (v : Version) (low high : VersionType) :
  parse text = Ok v →
  (rank high < rank low)%nat →
  ∃ s1 s2 : string,
    returns get_next_version (version_handler text low) s1 ∧
    returns get_next_version (version_handler s1 high) s2 ∧
    returns get_next_version (version_handler text high) s2.
Proof.
  intros Hparse Hrank.
  exists (format (bump v low)), (format (bump v high)).
  split; [|split].
  - now apply returns_steps.
  - rewrite <- (bump_absorbs v low high Hrank).
    apply returns_steps; [apply parse_format | reflexivity].
  - now apply returns_steps.
Qed.

Lemma higher_bump_absorbs_witness :
  ∃ s1 s2 : string,
    returns get_next_version (version_handler "1.2.3+5" PATCH) s1 ∧
    returns get_next_version (version_handler s1 MAJOR) s2 ∧
    returns get_next_version (version_handler "1.2.3+5" MAJOR) s2.
Proof.
  apply (higher_bump_absorbs "1.2.3+5" (Built 1 2 3 5) PATCH MAJOR);
    [reflexivity | cbn; lia].
Defined.


(** ** The file and the script *)

Section Files.

Lemma write_new_version_set (self : GenericVersion) (s : string) (w : world) :
  next_version self = Some s →
  write_new_version self w =
    (Done tt, mkWorld (<[filename self := s]> (fs w)) (stdout w)).
Proof.
  intros Hnext.
  unfold write_new_version, io_bind, PyFile.open_w, PyFile.write, io_ret.
  rewrite Hnext. cbn. rewrite lookup_insert_eq. cbn.
  now rewrite insert_insert_eq.
Qed.

Lemma call_set_bump_type (self : GenericVersion) (kind : VersionType) (w : world) :
  call (set_bump_type (value kind)) self w =
    (Done (tt, mkGenericVersion (filename self) (Some kind)
                 (current_version self) (next_version self)), w).
Proof.
  unfold call, set_bump_type, VersionType_of_value, bind, lift.
  rewrite value2member_lookup.
  now rewrite decide_False by discriminate.
Qed.

End Files.

(** X13. Reading the current version never succeeds: the file is opened
    for writing, so it is emptied and the read raises
    [io.UnsupportedOperation].  The constructor therefore never returns
    an object, and leaves an empty VERSION file behind. *)
Theorem constructor_always_raises (name : string) (w : world) :
  _get_current_version name w =
    (Failed UnsupportedOperation, mkWorld (<[name := ""]> (fs w)) (stdout w)) ∧
  __init__ w =
    (Failed UnsupportedOperation,
     mkWorld (<["VERSION" := ""]> (fs w)) (stdout w)).
Proof. split; reflexivity. Qed.

(** X14. The script never bumps anything.  When the argument parser
    returns, which it does only with one of the four choices, the run ends
    with [io.UnsupportedOperation] raised by the constructor: nothing is
    printed, VERSION is left empty and every other file is as it was.
    When the parser leaves the script instead, no file is touched and
    only what the parser printed is printed.  In no case does the script
    end normally. *)
Theorem main_never_bumps (args : parse_args_result) (w : world) :
  parse_args_contract args →
  ∃ (e : script_end) (w' : world),
    main args w = (e, w') ∧
    e ≠ Ended (Done tt) ∧
    (∀ name : string, name ≠ "VERSION" → fs w' !! name = fs w !! name) ∧
    match args with
    | Namespace version_type =>
        e = Ended (Failed UnsupportedOperation) ∧
        fs w' !! "VERSION" = Some "" ∧
        stdout w' = stdout w
    | Exits status printed =>
        e = SystemExit status ∧
        fs w' = fs w ∧
        stdout w' = (stdout w ++ printed)%list
    end.
Proof.
  intros _. destruct args as [status printed | version_type].
  - exists (SystemExit status), (mkWorld (fs w) (stdout w ++ printed)).
    now repeat split.
  - exists (Ended (Failed UnsupportedOperation)),
      (mkWorld (<["VERSION" := ""]> (fs w)) (stdout w)).
    split; [reflexivity|]. split; [discriminate|]. cbn [fs stdout].
    split; [intros name Hname; now apply lookup_insert_ne|].
    split; [reflexivity|]. split; [apply lookup_insert_eq | reflexivity].
Qed.

Lemma main_never_bumps_witness :
  ∃ (e : script_end) (w' : world),
    main (Namespace "patch")
      (mkWorld {["VERSION" := "1.2.3"; "README" := "text"]} []) = (e, w') ∧
    e ≠ Ended (Done tt) ∧
    (∀ name : string,
       name ≠ "VERSION" →
       fs w' !! name =
         ({["VERSION" := "1.2.3"; "README" := "text"]} : gmap string string)
           !! name) ∧
    (e = Ended (Failed UnsupportedOperation) ∧
     fs w' !! "VERSION" = Some "" ∧
     stdout w' = []).
Proof.
  assert (parse_args_contract (Namespace "patch")) as Hargs.
  { unfold parse_args_contract, choices. apply list_elem_of_In.
    cbn. tauto. }
  exact (main_never_bumps (Namespace "patch")
           (mkWorld {["VERSION" := "1.2.3"; "README" := "text"]} []) Hargs).
Defined.

(** X15. [write_new_version] replaces the content of the file by the
    stored next version, whatever the file held, and leaves the other
    files and the output alone; writing a second time changes nothing. *)
Theorem write_new_version_replaces
    (self : GenericVersion) (s : string) (w : world) :
  next_version self = Some s →
  ∃ w' : world,
    write_new_version self w = (Done tt, w') ∧
    fs w' !! filename self = Some s ∧
    (∀ name : string, name ≠ filename self → fs w' !! name = fs w !! name) ∧
    stdout w' = stdout w ∧
    write_new_version self w' = (Done tt, w').
Proof.
  intros Hnext.
  exists (mkWorld (<[filename self := s]> (fs w)) (stdout w)).
  split; [now apply write_new_version_set|]. cbn [fs stdout].
  split; [apply lookup_insert_eq|].
  split; [intros name Hname; now apply lookup_insert_ne|].
  split; [reflexivity|].
  rewrite (write_new_version_set self s) by assumption.
  cbn [fs stdout]. now rewrite insert_insert_eq.
Qed.

Lemma write_new_version_replaces_witness :
  ∃ w' : world,
    write_new_version
      (mkGenericVersion "VERSION" (Some PATCH) "1.2.3" (Some "1.2.4"))
      (mkWorld {["VERSION" := "1.2.3"]} []) = (Done tt, w') ∧
    fs w' !! "VERSION" = Some "1.2.4" ∧
    (∀ name : string,
       name ≠ "VERSION" →
       fs w' !! name =
         ({["VERSION" := "1.2.3"]} : gmap string string) !! name) ∧
    stdout w' = [] ∧
    write_new_version
      (mkGenericVersion "VERSION" (Some PATCH) "1.2.3" (Some "1.2.4")) w' =
      (Done tt, w').
Proof.
  exact (write_new_version_replaces
           (mkGenericVersion "VERSION" (Some PATCH) "1.2.3" (Some "1.2.4"))
           "1.2.4" (mkWorld {["VERSION" := "1.2.3"]} []) eq_refl).
Defined.

(** X16. Called before [get_next_version] has stored a next version,
    [write_new_version] raises [AttributeError] only after it has opened
    the file: the content of the file is lost. *)
Theorem write_new_version_unset (self : GenericVersion) (w : world) :
  next_version self = None →
  write_new_version self w =
    (Failed (Core AttributeError),
     mkWorld (<[filename self := ""]> (fs w)) (stdout w)).
Proof.
  intros Hnext. unfold write_new_version, io_bind, PyFile.open_w, io_raise.
  now rewrite Hnext.
Qed.

Lemma write_new_version_unset_witness :
  write_new_version (version_handler "1.2.3" PATCH)
    (mkWorld {["VERSION" := "1.2.3"]} []) =
    (Failed (Core AttributeError),
     mkWorld (<["VERSION" := ""]> {["VERSION" := "1.2.3"]}) []).
Proof.
  exact (write_new_version_unset (version_handler "1.2.3" PATCH)
           (mkWorld {["VERSION" := "1.2.3"]} []) eq_refl).
Defined.

(** X17. On an object that holds a text that parses, the rest of the
    script (the three method calls and the [print]) ends normally for
    each of the four accepted arguments: the file then holds the text of
    the bumped version, the same text is the one line printed, and this
    text parses to the bumped version again. *)
Theorem run_handler_writes
    (self : GenericVersion) (v : Version) (kind : VersionType) (w : world) :
  parse (current_version self) = Ok v →
  run_handler self (value kind) w =
    (Done tt,
     mkWorld (<[filename self := format (bump v kind)]> (fs w))
             (stdout w ++ [format (bump v kind)])) ∧
  parse (format (bump v kind)) = Ok (bump v kind).
Proof.
  intros Hparse. split; [|apply parse_format].
  unfold run_handler. unfold io_bind at 1. rewrite call_set_bump_type.
  unfold io_bind at 1. unfold call at 1.
  rewrite get_next_version_steps. cbn [current_version bump_type].
  rewrite Hparse. unfold io_bind.
  rewrite (write_new_version_set _ (format (bump v kind))) by reflexivity.
  reflexivity.
Qed.

Lemma run_handler_writes_witness :
  run_handler (mkGenericVersion "VERSION" None "1.2.3+5" None) "patch"
    (mkWorld {["VERSION" := "1.2.3+5"]} []) =
    (Done tt, mkWorld (<["VERSION" := "1.2.4+1"]> {["VERSION" := "1.2.3+5"]})
                      ["1.2.4+1"]) ∧
  parse "1.2.4+1" = Ok (Built 1 2 4 1).
Proof.
  exact (run_handler_writes (mkGenericVersion "VERSION" None "1.2.3+5" None)
           (Built 1 2 3 5) PATCH (mkWorld {["VERSION" := "1.2.3+5"]} [])
           eq_refl).
Defined.

(** X18. Nothing is written or printed when a method call fails: with an
    argument that is none of the four accepted strings, or with a text
    that does not parse, the rest of the script raises [ValueError] and
    the directory and the output are exactly as before. *)
Theorem run_handler_fails_clean
    (self : GenericVersion) (version_type : string) (w : world) :
  (version_type ≠ "major" ∧ version_type ≠ "minor" ∧
   version_type ≠ "patch" ∧ version_type ≠ "build") ∨
  is_Raise (parse (current_version self)) →
  run_handler self version_type w = (Failed (Core ValueError), w).
Proof.
  intros Hcase. unfold run_handler. unfold io_bind at 1. unfold call at 1.
  destruct (_value2member_map_ !! version_type) as [kind|] eqn:Hlookup.
  - destruct Hcase as [(H1 & H2 & H3 & H4) | Hfail].
    { now rewrite value2member_absent in Hlookup. }
    unfold set_bump_type, VersionType_of_value, bind, lift.
    rewrite Hlookup. rewrite decide_False by discriminate.
    cbn [set_bump_type_attr].
    unfold io_bind at 1. unfold call at 1.
    rewrite get_next_version_steps. cbn [current_version bump_type].
    destruct (parse (current_version self)) as [v|e] eqn:Hparse; [easy|].
    now apply parse_error in Hparse as ->.
  - unfold set_bump_type. rewrite Hlookup.
    now rewrite decide_True by reflexivity.
Qed.

Lemma run_handler_fails_clean_witness :
  run_handler (mkGenericVersion "VERSION" None "1.2" None) "patch"
    (mkWorld {["VERSION" := "1.2"]} []) =
    (Failed (Core ValueError), mkWorld {["VERSION" := "1.2"]} []).
Proof.
  exact (run_handler_fails_clean (mkGenericVersion "VERSION" None "1.2" None)
           "patch" (mkWorld {["VERSION" := "1.2"]} []) (or_intror I)).
Defined.

(** ** What a text that parses looks like *)

Lemma unpack3_length {A} (l : list A) (t : A * A * A) :
  Py.unpack3 l = Ok t → length l = 3%nat.
Proof. destruct l as [|a [|b [|c [|d l]]]]; cbn; congruence. Qed.

(** X19. A text that parses has exactly two dots where the version is
    read: in the whole text when the result is Unbuilt, in the piece before
    the first [+] when it is Built; and a Built result needs a [+] in the
    text. *)
Theorem parse_two_dots (text : string) (v : Version) :
  parse text = Ok v →
  Py.count "." (if is_built v then version_part text else text) = 2%nat ∧
  (is_built v = true → (0 < Py.count "+" text)%nat).
Proof.
  intros Hparse. pose proof (parse_shape text v Hparse) as Hshape.
  destruct (Z.ltb_spec 0 (Py.find "+" text)) as [Hfind | Hfind];
    rewrite Hshape.
  - destruct (parse_built_path text Hfind) as (h & b & r & Hsplit & Hread).
    rewrite Hread in Hparse. unfold read_built in Hparse.
    destruct (Py.unpack3 (Py.split "." h)) as [t|] eqn:Hunpack;
      [|discriminate].
    apply unpack3_length in Hunpack. rewrite length_split in Hunpack.
    unfold version_part. rewrite Hsplit. cbn [hd].
    split; [lia|]. intros _. apply find_present. lia.
  - rewrite parse_unbuilt_path in Hparse by assumption.
    unfold read_unbuilt in Hparse.
    destruct (Py.unpack3 (Py.split "." text)) as [t|] eqn:Hunpack;
      [|discriminate].
    apply unpack3_length in Hunpack. rewrite length_split in Hunpack.
    split; [lia | discriminate].
Qed.

Lemma parse_two_dots_witness :
  Py.count "." (version_part "1.2.3+4") = 2%nat ∧
  (true = true → (0 < Py.count "+" "1.2.3+4")%nat).
Proof.
  exact (parse_two_dots "1.2.3+4" (Built 1 2 3 4) eq_refl).
Defined.
